(** * reward-bench: the low-rank preference runner and the sweep submitter

    A shallow embedding of [rewardbench_lrpo.py] (the inference runner) and
    of [scripts/submit_eval_jobs.py] (the sweep submitter), followed by the
    properties of the two programs.

    Conventions of the embedding:
    - a Python exception is a value of [Py.exn]; code that can raise returns
      a [Py.result];
    - Python floats are Rocq's primitive binary64 floats; the element type of
      a torch tensor is a parameter (class [Runner.Scalar]);
    - quotients of two Python ints ([sum(results) / len(results)]) are kept
      as exact rationals;
    - the file system is a finite map from paths to nodes, and the effects of
      the submitter are recorded in a trace of events. *)

From Stdlib Require Import ZArith QArith Floats String Ascii List Lia.
From stdpp Require Import base option list strings pretty gmap.

Local Open Scope string_scope.
Local Open Scope Z_scope.
Local Open Scope list_scope.
Local Open Scope stdpp_scope.

(** * Python prelude *)
Module Py.

Inductive exn : Type :=
| AssertionError (msg : string)
| ValueError (msg : string)
| KeyError (key : string)
| IndexError (what : string)
| NotImplementedError (msg : string)
| ZeroDivisionError
| UnboundLocalError (var : string)
| FileNotFoundError (path : string)
| FileExistsError (path : string)
| IsADirectoryError (path : string)
| NotADirectoryError (path : string).

Inductive result (A : Type) : Type :=
| Ok (a : A)
| Raise (e : exn).
Arguments Ok {A} a.
Arguments Raise {A} e.

Definition bind {A B} (m : result A) (k : A → result B) : result B :=
  match m with
  | Ok a => k a
  | Raise e => Raise e
  end.

(** [sub in s] on strings. *)
Fixpoint str_contains (sub s : string) : bool :=
  String.prefix sub s
  || match s with
     | EmptyString => false
     | String _ s' => str_contains sub s'
     end.

(** Truthiness of an optional string ([None], and the empty string, are
    false). *)
Definition truthy_str (o : option string) : bool :=
  match o with
  | Some s => negb (String.eqb s "")
  | None => false
  end.

(** [str.replace(a, b)] for single characters. *)
Fixpoint replace_char (a b : ascii) (s : string) : string :=
  match s with
  | EmptyString => EmptyString
  | String c s' =>
      String (if Ascii.eqb c a then b else c) (replace_char a b s')
  end.

End Py.

#[export] Instance result_bind : MBind Py.result := λ A B k m, Py.bind m k.
#[export] Instance result_ret : MRet Py.result := λ A a, Py.Ok a.

(** * The inference runner, [rewardbench_lrpo.py] *)
Module Runner.
Import Py.

(** ** Tensors *)

(** The element type of the tensors the model computes with.  [s_item] is
    the conversion to a Python float done by [.cpu().numpy().tolist()]. *)
Class Scalar (num : Type) : Type := {
  s_zero : num;
  s_add : num → num → num;
  s_sub : num → num → num;
  s_mul : num → num → num;
  s_item : num → float;
}.

#[export] Instance float_scalar : Scalar float := {|
  s_zero := 0%float;
  s_add := PrimFloat.add;
  s_sub := PrimFloat.sub;
  s_mul := PrimFloat.mul;
  s_item := λ x, x;
|}.

Section Tensors.
Context {num : Type} `{Scalar num}.

(** Element-wise [a * b] and [a - b] on tensors of shape [batch, k]. *)
Definition tmul (a b : list (list num)) : list (list num) :=
  zip_with (zip_with s_mul) a b.
Definition tsub (a b : list (list num)) : list (list num) :=
  zip_with (zip_with s_sub) a b.

(** [torch.sum(t, dim=1)]. *)
Definition row_sum (row : list num) : num := fold_left s_add row s_zero.
Definition tsum_dim1 (t : list (list num)) : list num := map row_sum t.
End Tensors.

(** ** The model wrapper, [LlamaForPreferencePrediction] *)

(** The base class [LlamaForSequenceClassification] (transformers): given
    the configured number of labels and a batch of inputs it returns the
    logits, one row per input. *)
Definition seq_classifier (num : Type) : Type :=
  nat → list string → list (list num).

(** What the base class guarantees: logits of shape
    [len(inputs), num_labels]. *)
Definition logits_shape {num} (base : seq_classifier num) : Prop :=
  ∀ n xs, length (base n xs) = length xs
          ∧ Forall (λ row : list num, length row = n) (base n xs).

Record LlamaForPreferencePrediction (num : Type) : Type := {
  num_pref_rank : nat;
  config_num_labels : nat;
  super_forward : seq_classifier num;
}.
Arguments num_pref_rank {num} _.
Arguments config_num_labels {num} _.
Arguments super_forward {num} _.

(** [__init__(self, config, num_pref_rank=1)]. *)
Definition init {num} (base : seq_classifier num) (num_pref_rank : nat)
  : LlamaForPreferencePrediction num :=
  {| num_pref_rank := num_pref_rank;
     config_num_labels := 2 * num_pref_rank;
     super_forward := base |}.

(** The two shapes of the value [forward] returns. *)
Inductive forward_output (num : Type) : Type :=
| TupleOutput (logits_u logits_v : list (list num))
| DictOutput (logits logits_u logits_v : list (list num)).
Arguments TupleOutput {num} _ _.
Arguments DictOutput {num} _ _ _.

Definition forward {num} (self : LlamaForPreferencePrediction num)
    (input_ids : list string) (return_dict : bool) : forward_output num :=
  let all_logits := super_forward self (config_num_labels self) input_ids in
  let logits_u := map (take (num_pref_rank self)) all_logits in
  let logits_v := map (drop (num_pref_rank self)) all_logits in
  if negb return_dict then TupleOutput logits_u logits_v
  else DictOutput all_logits logits_u logits_v.

Definition output_uv {num} (o : forward_output num)
  : list (list num) * list (list num) :=
  match o with
  | TupleOutput u v => (u, v)
  | DictOutput _ u v => (u, v)
  end.

(** ** The data set and the loader *)

Record example : Type := {
  prompt : string;
  text_chosen : string;
  text_rejected : string;
}.

Fixpoint batches_fuel {A} (fuel bs : nat) (l : list A) : list (list A) :=
  match fuel, l with
  | _, [] => []
  | O, _ :: _ => []
  | S fuel', _ :: _ => take bs l :: batches_fuel fuel' bs (drop bs l)
  end.

(** The batches of a [DataLoader] with [shuffle=False], [drop_last=False]. *)
Definition batches {A} (bs : nat) (l : list A) : list (list A) :=
  batches_fuel (length l) bs l.

(** [torch.utils.data.DataLoader(dataset, batch_size=..., shuffle=False,
    drop_last=False)]; the batch sampler rejects a batch size that is not
    positive. *)
Definition DataLoader {A} (dataset : list A) (batch_size : Z)
  : result (list (list A)) :=
  if batch_size <=? 0 then
    Raise (ValueError "batch_size should be a positive integer value")
  else Ok (batches (Z.to_nat batch_size) dataset).

(** ** The inference loop *)

Record loop_state : Type := {
  results : list Z;
  scores_margin : list float;
  forward_calls : list (list string);
}.

Definition loop_init : loop_state :=
  {| results := []; scores_margin := []; forward_calls := [] |}.

Section Inference.
Context {num : Type} `{Scalar num}.
Variable model : LlamaForPreferencePrediction num.

(** Modelled from the spec: the call of the pipeline
    ([LowRankBenchPipeline.__call__], in rewardbench/models/pipeline.py,
    is not part of the sources at hand).  Per section 4.2, one call runs
    the forward pass of the model once on the given texts and returns the
    pair [(u, v)]; the log of forward passes is extended by that call. *)
Definition reward_pipe (calls : list (list string)) (texts : list string)
  : list (list string) * (list (list num) * list (list num)) :=
  (calls ++ [texts], output_uv (forward model texts true)).

(** [torch.sum(u_chosen * v_rejected - u_rejected * v_chosen, dim=1)]. *)
Definition pair_logits (u_chosen v_chosen u_rejected v_rejected
                          : list (list num)) : list num :=
  tsum_dim1 (tsub (tmul u_chosen v_rejected) (tmul u_rejected v_chosen)).

(** [1 if logit > 0 else 0]. *)
Definition outcome (logit : float) : Z :=
  if (0 <? logit)%float then 1 else 0.

(** The body of the loop over the batches. *)
Definition step (st : loop_state) (batch : list example) : loop_state :=
  let '(calls1, (u_chosen, v_chosen)) :=
    reward_pipe (forward_calls st) (map text_chosen batch) in
  let '(calls2, (u_rejected, v_rejected)) :=
    reward_pipe calls1 (map text_rejected batch) in
  let logits := pair_logits u_chosen v_chosen u_rejected v_rejected in
  let logits := map s_item logits in
  {| results := results st ++ map outcome logits;
     scores_margin := scores_margin st ++ logits;
     forward_calls := calls2 |}.

Definition run_inference (dataloader : list (list example)) : loop_state :=
  fold_left step dataloader loop_init.
End Inference.

(** ** Command line and configuration tables *)

Record args : Type := {
  dataset : string;
  split : option string;
  model : string;
  ref_model : option string;
  tokenizer : option string;
  chat_template : option string;
  not_quantized : bool;
  batch_size : Z;
  max_length : Z;
  load_json : bool;
  trust_remote_code : bool;
  debug : bool;
  output_dir : string;
  save_all : bool;
  force_truncation : bool;
}.

(** An entry of [REWARD_MODEL_CONFIG] or [DPO_MODEL_CONFIG]. *)
Record model_config : Type := {
  quantized : bool;
  custom_dialogue : bool;
  model_type : string;
}.

Inductive device_placement : Type :=
| OnDevice (index : Z)
| Auto.

(** The keyword arguments given to the model builder; [None] is an absent
    key. *)
Record model_kwargs : Type := {
  load_in_8bit : option bool;
  device_map : device_placement;
  torch_dtype_float16 : option bool;
}.

(** What the runner imports or calls and is not defined in its file. *)
Record world (num : Type) : Type := {
  REWARD_MODEL_CONFIG : gmap string model_config;
  DPO_MODEL_CONFIG : gmap string model_config;
  current_device : Z;
  cuda_is_available : bool;
  get_conv_template : string → result unit;
  load_tokenizer : string → bool → result unit;
  load_eval_dataset : result (list example * list string);
  load_preference_dataset :
    string → option string → bool → result (list example);
  from_pretrained :
    string → model_kwargs → bool → result (seq_classifier num);
  calculate_scores_per_section : gmap string Q → result (list (string * Q));
}.
Arguments REWARD_MODEL_CONFIG {num} _.
Arguments DPO_MODEL_CONFIG {num} _.
Arguments current_device {num} _.
Arguments cuda_is_available {num} _.
Arguments get_conv_template {num} _ _.
Arguments load_tokenizer {num} _ _ _.
Arguments load_eval_dataset {num} _.
Arguments load_preference_dataset {num} _ _ _ _.
Arguments from_pretrained {num} _ _ _ _.
Arguments calculate_scores_per_section {num} _ _.

Definition core_dataset : string := "allenai/reward-bench".

Definition is_core (a : args) : bool := String.eqb (dataset a) core_dataset.

(** ** Configuration checks *)

(** [if args.ref_model: ... else: ...]: the mode and its table. *)
Definition select_configs {num} (w : world num) (a : args)
  : result (bool * gmap string model_config) :=
  if truthy_str (ref_model a) then
    if negb (bool_decide (Some (model a) = ref_model a)) then
      Ok (true, DPO_MODEL_CONFIG w)
    else
      Raise (AssertionError "policy and reference model should be different")
  else Ok (false, REWARD_MODEL_CONFIG w).

(** [MODEL_CONFIGS[args.model]] when present, else the default entry. *)
Definition lookup_config (MODEL_CONFIGS : gmap string model_config)
    (a : args) : result model_config :=
  match MODEL_CONFIGS !! model a with
  | Some config => Ok config
  | None =>
      match MODEL_CONFIGS !! "default" with
      | Some config => Ok config
      | None => Raise (KeyError "default")
      end
  end.

(** The quantization switch. *)
Definition resolve_quantized (config : model_config) (a : args) : bool :=
  let quantized := quantized config in
  if str_contains "llama-3" (model a)
     || str_contains "Llama3" (model a)
     || str_contains "Llama-3" (model a)
     || str_contains "LLaMA3" (model a)
     || not_quantized a
  then false
  else quantized.

Definition check_custom_dialogue (config : model_config) : result unit :=
  if custom_dialogue config then
    Raise (NotImplementedError
             "Custom dialogue not implemented yet for simpler data formatting.")
  else Ok ().

(** The keyword arguments of the model builder. *)
Definition build_model_kwargs {num} (w : world num) (quantized : bool)
  : model_kwargs :=
  if quantized then
    {| load_in_8bit := Some true;
       device_map := OnDevice (current_device w);
       torch_dtype_float16 :=
         if cuda_is_available w then Some true else None |}
  else
    {| load_in_8bit := None; device_map := Auto;
       torch_dtype_float16 := None |}.

(** ** Loading the data set *)

(** [dataset.select(range(10))]: an index out of range is an error. *)
Definition select_range10 {A} (dataset : list A) : result (list A) :=
  if (length dataset <? 10)%nat then
    Raise (IndexError "select: index out of range")
  else Ok (take 10 dataset).

(** The value of the local variable [subsets] is [None] while unbound. *)
Definition load_dataset {num} (w : world num) (a : args)
  : result (list example * option (list string)) :=
  '(dataset, subsets) ←
    (if is_core a then
       '(dataset, subsets) ← load_eval_dataset w; Ok (dataset, Some subsets)
     else
       dataset ← load_preference_dataset w (dataset a) (split a) (load_json a);
       Ok (dataset, None));
  if debug a then
    dataset ← select_range10 dataset; Ok (dataset, subsets)
  else Ok (dataset, subsets).

(** ** Compiling the scores *)

Definition py_sum (l : list Z) : Z := fold_left Z.add l 0.

(** [a / b] on two ints. *)
Definition true_div (a b : Z) : result Q :=
  if b =? 0 then Raise ZeroDivisionError
  else Ok (inject_Z a / inject_Z b)%Q.

(** [accuracy = sum(results) / len(results)]. *)
Definition compute_accuracy (results : list Z) : result Q :=
  true_div (py_sum results) (Z.of_nat (length results)).

(** Reading a local variable that may not have been assigned. *)
Definition read_local {A} (name : string) (v : option A) : result A :=
  match v with
  | Some x => Ok x
  | None => Raise (UnboundLocalError name)
  end.

(** [dataset.add_column(name, column)]. *)
Definition add_column {A B} (dataset : list A) (column : list B)
  : result (list (A * B)) :=
  if (length dataset =? length column)%nat then Ok (zip dataset column)
  else Raise (ValueError "column length does not match the dataset").

(** The column [results] of the rows whose subset is [subset]. *)
Definition subset_results {A} (out_dataset : list ((A * Z) * string))
    (subset : string) : list Z :=
  map (λ row, row.1.2) (filter (λ row, row.2 = subset) out_dataset).

(** The loop over [present_subsets]. *)
Fixpoint group_loop {A} (out_dataset : list ((A * Z) * string))
    (present_subsets : list string) (results_grouped : gmap string Q)
  : result (gmap string Q) :=
  match present_subsets with
  | [] => Ok results_grouped
  | subset :: rest =>
      let column := subset_results out_dataset subset in
      let num_correct := py_sum column in
      let num_total := Z.of_nat (length column) in
      acc ← true_div num_correct num_total;
      group_loop out_dataset rest (<[subset := acc]> results_grouped)
  end.

(** The branch taken on the core data set: per-subset accuracies and
    section scores.  [np.unique] is rendered by [remove_dups]; the order of
    the subsets does not show in the finite map that is built. *)
Definition group_core {num} (w : world num) (a : args)
    (dataset : list example) (results : list Z)
    (subsets : option (list string))
  : result (gmap string Q * list (string * Q)) :=
  out_dataset ← add_column dataset results;
  subsets ← read_local "subsets" subsets;
  let subsets := if debug a then take 10 subsets else subsets in
  out_dataset ← add_column out_dataset subsets;
  let present_subsets := remove_dups subsets in
  results_grouped ← group_loop out_dataset present_subsets ∅;
  results_section ← calculate_scores_per_section w results_grouped;
  Ok (results_grouped, results_section).

(** ** The summary and the file system *)

Module Summary.
(** The object given to [json.dump]. *)
Record t : Type := {
  accuracy : Q;
  num_prompts : Z;
  model : string;
  ref_model : option string;
  tokenizer : string;
  chat_template : option string;
  extra_results : option (gmap string Q);
  section_results : option (list (string * Q));
  section_results_mean : Q;
}.
End Summary.

(** What has been written to a file since it was opened. *)
Inductive chunk : Type :=
| JsonSummary (s : Summary.t)
| JsonLine (reward_margin : float)
| Bytes (s : string).

Inductive node : Type :=
| File (content : list chunk)
| Dir.

Inductive os_event : Type :=
| EvMakedirs (name : string)
| EvRemove (path : string)
| EvOpenW (path : string)
| EvWrite (path : string) (c : chunk).

Record os_state : Type := {
  fs : gmap string node;
  oplog : list os_event;
}.

Definition os_m (A : Type) : Type := os_state → os_state * result A.

Definition os_ret {A} (a : A) : os_m A := λ st, (st, Ok a).

Definition os_bind {A B} (m : os_m A) (k : A → os_m B) : os_m B :=
  λ st,
    match m st with
    | (st', Ok a) => k a st'
    | (st', Raise e) => (st', Raise e)
    end.

Definition os_lift {A} (r : result A) : os_m A := λ st, (st, r).

#[export] Instance os_mbind : MBind os_m := λ A B k m, os_bind m k.
#[export] Instance os_mret : MRet os_m := λ A a, os_ret a.

Definition slash : ascii := "/"%char.

Fixpoint drop_while {A} (p : A → bool) (l : list A) : list A :=
  match l with
  | [] => []
  | x :: l' => if p x then drop_while p l' else l
  end.

(** [os.path.dirname] (posixpath): the part up to the last slash, without
    its trailing slashes unless it consists of slashes only. *)
Definition os_path_dirname (p : string) : string :=
  let is_slash := Ascii.eqb slash in
  let rev_head :=
    drop_while (λ c, negb (is_slash c)) (rev (list_ascii_of_string p)) in
  let stripped := drop_while is_slash rev_head in
  string_of_list_ascii
    (rev (match stripped with [] => rev_head | _ :: _ => stripped end)).

(** The ancestors of a path: its prefixes that end just before a slash,
    the empty one and those that end in a slash themselves left out.
    [seen] holds the characters read so far, last one first. *)
Fixpoint ancestors_from (seen : list ascii) (rest : string) : list string :=
  match rest with
  | EmptyString => []
  | String c rest' =>
      (if Ascii.eqb slash c then
         match seen with
         | [] => []
         | last :: _ =>
             if Ascii.eqb slash last then []
             else [string_of_list_ascii (rev seen)]
         end
       else [])
      ++ ancestors_from (c :: seen) rest'
  end.

Definition ancestors (name : string) : list string := ancestors_from [] name.

Definition is_file (n : option node) : bool :=
  match n with
  | Some (File _) => true
  | _ => false
  end.

(** The directories at the given paths, added to a file system. *)
Definition make_dirs (paths : list string) (m : gmap string node)
  : gmap string node :=
  foldr (λ p m, <[p := Dir]> m) m paths.

(** The path at which [mkdir] fails along a chain of paths, each the parent
    of the next: the one that follows the first regular file. *)
Fixpoint blocked (m : gmap string node) (chain : list string)
  : option string :=
  match chain with
  | p :: (q :: _) as rest => if is_file (m !! p) then Some q else blocked m rest
  | _ => None
  end.

(** [os.makedirs(name, exist_ok=True)]: the directory and the ancestors that
    are missing are made.  [mkdir] raises [FileNotFoundError] for the empty
    name, [NotADirectoryError] below an ancestor that is a regular file, and
    [FileExistsError] where the name itself is one ([exist_ok] lets only a
    directory pass).  Paths are compared as strings. *)
Definition os_makedirs (name : string) : os_m unit :=
  λ st,
    if String.eqb name "" then (st, Raise (FileNotFoundError name))
    else
      match blocked (fs st) (ancestors name ++ [name]) with
      | Some q => (st, Raise (NotADirectoryError q))
      | None =>
          match fs st !! name with
          | Some (File _) => (st, Raise (FileExistsError name))
          | _ =>
              ({| fs := make_dirs (ancestors name ++ [name]) (fs st);
                  oplog := oplog st ++ [EvMakedirs name] |}, Ok ())
          end
      end.

Definition os_path_exists (path : string) : os_m bool :=
  λ st, (st, Ok (bool_decide (is_Some (fs st !! path)))).

(** [os.remove(path)]. *)
Definition os_remove (path : string) : os_m unit :=
  λ st,
    match fs st !! path with
    | Some (File _) =>
        ({| fs := delete path (fs st);
            oplog := oplog st ++ [EvRemove path] |}, Ok ())
    | Some Dir => (st, Raise (IsADirectoryError path))
    | None => (st, Raise (FileNotFoundError path))
    end.

(** [open(path, "w")]: the file is created, or emptied.  The directory of
    the path has been made by the caller just before. *)
Definition open_w (path : string) : os_m unit :=
  λ st,
    match fs st !! path with
    | Some Dir => (st, Raise (IsADirectoryError path))
    | _ =>
        ({| fs := <[path := File []]> (fs st);
            oplog := oplog st ++ [EvOpenW path] |}, Ok ())
    end.

(** A write to a file opened for writing. *)
Definition file_write (path : string) (c : chunk) : os_m unit :=
  λ st,
    match fs st !! path with
    | Some (File content) =>
        ({| fs := <[path := File (content ++ [c])]> (fs st);
            oplog := oplog st ++ [EvWrite path c] |}, Ok ())
    | _ => (st, Raise (ValueError "I/O operation on closed file"))
    end.

(** ** Saving the results *)

Definition sum_values (d : list (string * Q)) : Q :=
  fold_left Qplus (map snd d) 0%Q.

(** [sum(results_section.values()) / len(results_section)]. *)
Definition mean_values (d : list (string * Q)) : result Q :=
  if (length d =? 0)%nat then Raise ZeroDivisionError
  else Ok (sum_values d / inject_Z (Z.of_nat (length d)))%Q.

(** The dictionary given to [json.dump], its entries evaluated in order. *)
Definition summary_payload (a : args) (results : list Z) (accuracy : Q)
    (tokenizer_path : string)
    (results_grouped : option (gmap string Q))
    (results_section : option (list (string * Q)))
  : result Summary.t :=
  extra_results ←
    (if is_core a then
       g ← read_local "results_grouped" results_grouped; Ok (Some g)
     else Ok None);
  section_results ←
    (if is_core a then
       s ← read_local "results_section" results_section; Ok (Some s)
     else Ok None);
  section ← read_local "results_section" results_section;
  section_results_mean ← mean_values section;
  Ok {| Summary.accuracy := accuracy;
        Summary.num_prompts := Z.of_nat (length results);
        Summary.model := model a;
        Summary.ref_model := ref_model a;
        Summary.tokenizer := tokenizer_path;
        Summary.chat_template := chat_template a;
        Summary.extra_results := extra_results;
        Summary.section_results := section_results;
        Summary.section_results_mean := section_results_mean |}.

Definition output_path (a : args) : string :=
  output_dir a +:+ model a +:+ ".json".

Definition write_summary (a : args) (results : list Z) (accuracy : Q)
    (tokenizer_path : string)
    (results_grouped : option (gmap string Q))
    (results_section : option (list (string * Q)))
  : os_m unit :=
  let output_path := output_path a in
  let dirname := os_path_dirname output_path in
  _ ← os_makedirs dirname;
  existing ← os_path_exists output_path;
  _ ← (if existing : bool then os_remove output_path else os_ret ());
  _ ← open_w output_path;
  payload ← os_lift (summary_payload a results accuracy tokenizer_path
                       results_grouped results_section);
  file_write output_path (JsonSummary payload).

Definition output_path_all (a : args) : string :=
  output_dir a +:+ model a +:+ "_all.jsonl".

Fixpoint write_lines (path : string) (scores_margin : list float)
  : os_m unit :=
  match scores_margin with
  | [] => os_ret ()
  | logit :: rest =>
      _ ← file_write path (JsonLine logit); write_lines path rest
  end.

Definition write_all (a : args) (scores_margin : list float) : os_m unit :=
  let output_path := output_path_all a in
  let dirname := os_path_dirname output_path in
  _ ← os_makedirs dirname;
  existing ← os_path_exists output_path;
  _ ← (if existing : bool then os_remove output_path else os_ret ());
  _ ← open_w output_path;
  write_lines output_path scores_margin.

(** ** [main] *)

(** What the part of [main] before the files are written leaves in its
    local variables. *)
Record computed : Type := {
  c_tokenizer_path : string;
  c_quantized : bool;
  c_model_kwargs : model_kwargs;
  c_dataset : list example;
  c_loop : loop_state;
  c_accuracy : Q;
  c_results_grouped : option (gmap string Q);
  c_results_section : option (list (string * Q));
}.

Section Main.
Context {num : Type} `{Scalar num}.
Variable w : world num.
Variable a : args.

(** From the start of [main] to the end of the compilation of scores.
    Tokenisation, padding and truncation are part of the classifier the
    model builder returns; logging is left out. *)
Definition compute : result computed :=
  '(is_dpo, MODEL_CONFIGS) ← select_configs w a;
  _ ← (match chat_template a with
       | Some name =>
           if truthy_str (chat_template a) then get_conv_template w name
           else Ok ()
       | None => Ok ()
       end);
  config ← lookup_config MODEL_CONFIGS a;
  let quantized := resolve_quantized config a in
  _ ← check_custom_dialogue config;
  let tokenizer_path :=
    match tokenizer a with
    | Some t => if truthy_str (tokenizer a) then t else model a
    | None => model a
    end in
  _ ← load_tokenizer w tokenizer_path (trust_remote_code a);
  '(dataset, subsets) ← load_dataset w a;
  if is_dpo : bool then Raise (NotImplementedError "")
  else
    let model_kwargs := build_model_kwargs w quantized in
    base ← from_pretrained w (model a) model_kwargs (trust_remote_code a);
    let reward_model := init base 1 in
    dataloader ← DataLoader dataset (batch_size a);
    let st := run_inference reward_model dataloader in
    accuracy ← compute_accuracy (results st);
    '(results_grouped, results_section) ←
      (if is_core a then
         '(g, s) ← group_core w a dataset (results st) subsets;
         Ok (Some g, Some s)
       else Ok (None, None));
    Ok {| c_tokenizer_path := tokenizer_path;
          c_quantized := quantized;
          c_model_kwargs := model_kwargs;
          c_dataset := dataset;
          c_loop := st;
          c_accuracy := accuracy;
          c_results_grouped := results_grouped;
          c_results_section := results_section |}.

Definition save (c : computed) : os_m unit :=
  _ ← write_summary a (results (c_loop c)) (c_accuracy c)
        (c_tokenizer_path c) (c_results_grouped c) (c_results_section c);
  if save_all a then write_all a (scores_margin (c_loop c))
  else os_ret ().

Definition main : os_m unit :=
  c ← os_lift compute; save c.
End Main.

(** ** What the properties are stated with *)

(** The logits of one batch, as [step] computes them, and the margins of a
    whole run. *)
Definition batch_logits {num} `{Scalar num}
    (model : LlamaForPreferencePrediction num) (batch : list example)
  : list num :=
  let '(u_chosen, v_chosen) :=
    output_uv (forward model (map text_chosen batch) true) in
  let '(u_rejected, v_rejected) :=
    output_uv (forward model (map text_rejected batch) true) in
  pair_logits u_chosen v_chosen u_rejected v_rejected.

Definition run_margins {num} `{Scalar num}
    (model : LlamaForPreferencePrediction num)
    (dataloader : list (list example)) : list float :=
  concat (map (λ batch, map s_item (batch_logits model batch)) dataloader).


(** [sub] occurs in [s]. *)
Definition occurs_in (sub s : string) : Prop :=
  ∃ pre post, s = pre +:+ sub +:+ post.

Definition llama3_tags : list string :=
  ["llama-3"; "Llama3"; "Llama-3"; "LLaMA3"].

(** The model identifier names a Llama 3 model, or [--not_quantized] is
    passed. *)
Definition forced_unquantized (a : args) : Prop :=
  (∃ tag, tag ∈ llama3_tags ∧ occurs_in tag (model a))
  ∨ not_quantized a = true.

(** The preference score of one example, by rank dimension: with [u] the
    first [k] logits and [v] the next [k], the sum over [j < k] of
    [u_chosen[j] * v_rejected[j] - u_rejected[j] * v_chosen[j]]. *)
Definition preference_score {num} `{Scalar num} (k : nat)
    (chosen rejected : list num) : num :=
  let u (logits : list num) (j : nat) := nth j logits s_zero in
  let v (logits : list num) (j : nat) := nth (k + j) logits s_zero in
  fold_left s_add
    (map (λ j, s_sub (s_mul (u chosen j) (v rejected j))
                     (s_mul (u rejected j) (v chosen j)))
         (seq 0 k))
    s_zero.

(** The number of outcomes equal to 1. *)
Definition count_ones (results : list Z) : nat :=
  length (filter (λ o, o = 1) results).

(** The summaries written, with their paths, in the order of the log. *)
Fixpoint summaries_written (log : list os_event)
  : list (string * Summary.t) :=
  match log with
  | [] => []
  | EvWrite path (JsonSummary s) :: log' => (path, s) :: summaries_written log'
  | _ :: log' => summaries_written log'
  end.

(** ** A small world to run [main] in *)

Definition float_of_nat (n : nat) : float :=
  PrimFloat.of_uint63 (Uint63.of_Z (Z.of_nat n)).

(** A classifier whose first logit is the length of the text and whose other
    logits are 1. *)
Definition length_classifier : seq_classifier float :=
  λ n xs,
    map (λ x, take n (float_of_nat (String.length x) :: repeat 1%float n)) xs.

Definition sample_config : model_config :=
  {| quantized := true; custom_dialogue := false;
     model_type := "Seq. Classifier" |}.

Definition pair (chosen rejected : string) : example :=
  {| prompt := "p"; text_chosen := chosen; text_rejected := rejected |}.

(** Margins 2, -1, 0 and 5. *)
Definition sample_dataset : list example :=
  [pair "abc" "a"; pair "a" "ab"; pair "ab" "cd"; pair "abcdef" "a"].

Definition sample_world (dataset : list example) : world float :=
  {| REWARD_MODEL_CONFIG := {["default" := sample_config]};
     DPO_MODEL_CONFIG := {["default" := sample_config]};
     current_device := 0;
     cuda_is_available := false;
     get_conv_template := λ _, Ok ();
     load_tokenizer := λ _ _, Ok ();
     load_eval_dataset := Ok (dataset, map (λ _, "chat") dataset);
     load_preference_dataset := λ _ _ _, Ok dataset;
     from_pretrained := λ _ _ _, Ok length_classifier;
     calculate_scores_per_section :=
       λ grouped, Ok [("Chat", default 0%Q (grouped !! "chat"))] |}.

(** The keyword arguments of a model loaded in 8 bits and of one loaded as
    it is. *)
Definition kwargs_8bit {num} (w : world num) : model_kwargs :=
  {| load_in_8bit := Some true;
     device_map := OnDevice (current_device w);
     torch_dtype_float16 := if cuda_is_available w then Some true else None |}.

Definition kwargs_plain : model_kwargs :=
  {| load_in_8bit := None; device_map := Auto; torch_dtype_float16 := None |}.

(** A world whose model builder refuses to load a model in 8 bits. *)
Definition no_8bit_world (dataset : list example) : world float :=
  {| REWARD_MODEL_CONFIG := {["default" := sample_config]};
     DPO_MODEL_CONFIG := {["default" := sample_config]};
     current_device := 0;
     cuda_is_available := false;
     get_conv_template := λ _, Ok ();
     load_tokenizer := λ _ _, Ok ();
     load_eval_dataset := Ok (dataset, map (λ _, "chat") dataset);
     load_preference_dataset := λ _ _ _, Ok dataset;
     from_pretrained :=
       λ _ kw _,
         match load_in_8bit kw with
         | Some true => Raise (ValueError "8-bit loading is not available")
         | _ => Ok length_classifier
         end;
     calculate_scores_per_section :=
       λ grouped, Ok [("Chat", default 0%Q (grouped !! "chat"))] |}.

(** A model with a Llama 3 tag in its name. *)
Definition llama3_args : args :=
  {| dataset := core_dataset; split := None;
     model := "org/Llama-3-rm"; ref_model := None;
     tokenizer := None; chat_template := None;
     not_quantized := false; batch_size := 8; max_length := 512;
     load_json := false; trust_remote_code := false;
     debug := false; output_dir := "results/"; save_all := false;
     force_truncation := false |}.

Definition sample_args (dataset output_dir : string) : args :=
  {| dataset := dataset; split := None; model := "m"; ref_model := None;
     tokenizer := None; chat_template := None; not_quantized := false;
     batch_size := 8; max_length := 512; load_json := false;
     trust_remote_code := false; debug := false; output_dir := output_dir;
     save_all := false; force_truncation := false |}.

Definition empty_os : os_state := {| fs := ∅; oplog := [] |}.

(** A summary file left by an earlier run. *)
Definition old_os : os_state :=
  {| fs := {["results/m.json" := File [Bytes "old"]]}; oplog := [] |}.

Definition sample_payload : Summary.t :=
  {| Summary.accuracy := 1 # 2;
     Summary.num_prompts := 2;
     Summary.model := "m";
     Summary.ref_model := None;
     Summary.tokenizer := "m";
     Summary.chat_template := None;
     Summary.extra_results := Some ∅;
     Summary.section_results := Some [("Chat", (1 # 2)%Q)];
     Summary.section_results_mean := 1 # 2 |}.

End Runner.

(** * The sweep submitter, [scripts/submit_eval_jobs.py] *)
Module Submitter.
Import Py.

(** ** Values read from YAML files *)

Inductive yaml : Type :=
| YNull
| YBool (b : bool)
| YInt (z : Z)
| YStr (s : string).

(** Truthiness. *)
Definition truthy (v : yaml) : bool :=
  match v with
  | YNull => false
  | YBool b => b
  | YInt z => negb (z =? 0)
  | YStr s => negb (String.eqb s "")
  end.

(** The text an f-string puts for a value. *)
Definition py_str (v : yaml) : string :=
  match v with
  | YNull => "None"
  | YBool true => "True"
  | YBool false => "False"
  | YInt z => pretty z
  | YStr s => s
  end.

Definition is_not_none (v : yaml) : bool :=
  match v with YNull => false | _ => true end.

(** An entry of the sweep configuration, and the whole configuration in
    the order of the file. *)
Definition model_config : Type := gmap string yaml.
Definition configs_t : Type := list (string * model_config).

(** [d[key]]. *)
Definition getitem (d : model_config) (key : string) : result yaml :=
  match d !! key with
  | Some v => Ok v
  | None => Raise (KeyError key)
  end.

Fixpoint configs_get (configs : configs_t) (model : string)
  : result model_config :=
  match configs with
  | [] => Raise (KeyError model)
  | (k, v) :: rest =>
      if String.eqb k model then Ok v else configs_get rest model
  end.

Definition keys (configs : configs_t) : list string := map fst configs.

(** ** The job document *)

Record env_var : Type := {
  ev_name : string;
  ev_value : string;
}.

(** The fields of [tasks[0]] the submitter assigns; the rest of the
    template is carried along unchanged and is not represented. *)
Record task : Type := {
  name : string;
  image_beaker : string;
  context_cluster : string;
  context_priority : string;
  resources_gpuCount : yaml;
  envVars : list env_var;
  arguments : list string;
}.

Record document : Type := {
  description : string;
  tasks : list task;
}.

(** ** Command line, environment and effects *)

Record args : Type := {
  eval_on_pref_sets : bool;
  eval_on_bon : bool;
  image : string;
  cluster : string;
  upload_to_hub : bool;
  model : option string;
  ref_free : bool;
  eval_dpo_only : bool;
  eval_rm_only : bool;
}.

(** The files the submitter reads ([None]: no such file) and the
    environment variable it needs. *)
Record world : Type := {
  beaker_eval_yaml : option document;
  eval_bon_configs_yaml : option configs_t;
  eval_configs_yaml : option configs_t;
  HF_TOKEN : option string;
}.

Inductive event : Type :=
| EvOpenRead (path : string)
| EvMakedirs (path : string)
| EvWriteYaml (fn : string) (d : document)
| EvPopen (cmd : string).

Record state : Type := {
  auto_created_exists : bool;
  trace : list event;
}.

Definition sub_m (A : Type) : Type := state → state * result A.

Definition sub_ret {A} (a : A) : sub_m A := λ st, (st, Ok a).

Definition sub_bind {A B} (m : sub_m A) (k : A → sub_m B) : sub_m B :=
  λ st,
    match m st with
    | (st', Ok a) => k a st'
    | (st', Raise e) => (st', Raise e)
    end.

Definition lift {A} (r : result A) : sub_m A := λ st, (st, r).

#[export] Instance sub_mbind : MBind sub_m := λ A B k m, sub_bind m k.
#[export] Instance sub_mret : MRet sub_m := λ A a, sub_ret a.

Definition emit (e : event) : sub_m unit :=
  λ st, ({| auto_created_exists := auto_created_exists st;
            trace := trace st ++ [e] |}, Ok ()).

Definition py_assert (cond : bool) (msg : string) : sub_m unit :=
  lift (if cond then Ok () else Raise (AssertionError msg)).

(** [with open(path, "r") as f: yaml.load(f.read(), ...)]. *)
Definition read_yaml {A} (path : string) (content : option A) : sub_m A :=
  _ ← emit (EvOpenRead path);
  lift (match content with
        | Some v => Ok v
        | None => Raise (FileNotFoundError path)
        end).

Definition auto_created : string := "beaker_configs/auto_created".

(** [if not os.path.exists(dir): os.makedirs(dir)]. *)
Definition ensure_auto_created : sub_m unit :=
  λ st,
    if auto_created_exists st then (st, Ok ())
    else ({| auto_created_exists := true;
             trace := trace st ++ [EvMakedirs auto_created] |}, Ok ()).

(** ** Assignments into the document *)

(** [d["tasks"][0]... = ...]. *)
Definition update_task0 (f : task → result task) (d : document)
  : result document :=
  match tasks d with
  | [] => Raise (IndexError "list index out of range")
  | t :: rest =>
      t' ← f t;
      Ok {| description := description d; tasks := t' :: rest |}
  end.

Definition set_image_cluster (image cluster : string) (num_gpus : Z)
    (t : task) : result task :=
  Ok {| name := name t;
        image_beaker := image;
        context_cluster := cluster;
        context_priority := "high";
        resources_gpuCount := YInt num_gpus;
        envVars := envVars t;
        arguments := arguments t |}.

(** [...["envVars"][6]["value"] = HF_TOKEN]. *)
Definition set_token (token : string) (t : task) : result task :=
  match envVars t !! 6%nat with
  | None => Raise (IndexError "list index out of range")
  | Some ev =>
      Ok {| name := name t;
            image_beaker := image_beaker t;
            context_cluster := context_cluster t;
            context_priority := context_priority t;
            resources_gpuCount := resources_gpuCount t;
            envVars :=
              <[6%nat := {| ev_name := ev_name ev; ev_value := token |}]>
                (envVars t);
            arguments := arguments t |}
  end.

Definition set_name (n : string) (t : task) : result task :=
  Ok {| name := n;
        image_beaker := image_beaker t;
        context_cluster := context_cluster t;
        context_priority := context_priority t;
        resources_gpuCount := resources_gpuCount t;
        envVars := envVars t;
        arguments := arguments t |}.

Definition set_gpuCount (v : yaml) (t : task) : result task :=
  Ok {| name := name t;
        image_beaker := image_beaker t;
        context_cluster := context_cluster t;
        context_priority := context_priority t;
        resources_gpuCount := v;
        envVars := envVars t;
        arguments := arguments t |}.

(** [...["arguments"][0] = s]. *)
Definition set_arguments0 (s : string) (t : task) : result task :=
  match arguments t with
  | [] => Raise (IndexError "list assignment index out of range")
  | _ :: rest =>
      Ok {| name := name t;
            image_beaker := image_beaker t;
            context_cluster := context_cluster t;
            context_priority := context_priority t;
            resources_gpuCount := resources_gpuCount t;
            envVars := envVars t;
            arguments := s :: rest |}
  end.

(** [...["arguments"][0] += suffix]. *)
Definition append_arguments0 (suffix : string) (t : task) : result task :=
  match arguments t with
  | [] => Raise (IndexError "list index out of range")
  | s :: _ => set_arguments0 (s +:+ suffix) t
  end.

Definition set_description (n : string) (d : document) : document :=
  {| description := n; tasks := tasks d |}.

(** ** The sweep *)

(** Does the filter skip the entry? *)
Definition skipped (a : args) (eval_dpo : yaml) : bool :=
  if eval_dpo_only a then negb (truthy eval_dpo)
  else if eval_rm_only a then truthy eval_dpo
  else false.

(** The experiment group and the script of an entry. *)
Definition select_script (a : args) (eval_dpo : yaml) : string * string :=
  let '(experiment_group, script) :=
    if eval_on_bon a then ("rewardebench-bon", "run_bon.py")
    else if truthy eval_dpo then ("rewardebench-dpo", "run_dpo.py")
    else ("rewardebench-seq", "run_rm.py") in
  let experiment_group :=
    if eval_on_pref_sets a then experiment_group +:+ "-pref-sets"
    else experiment_group in
  (experiment_group, script).

Definition job_name (model experiment_group : string) : string :=
  replace_char "/" "-"
    ("rewardbench_eval_for_" +:+ model +:+ "_on_" +:+ experiment_group).

(** The document of one entry. *)
Definition fill_document (a : args) (d1 : document) (model : string)
    (model_config : model_config) (script name : string)
  : result document :=
  let d := d1 in
  let d := set_description name d in
  d ← update_task0 (set_name name) d;
  d ← (match model_config !! "num_gpus" with
       | Some v => update_task0 (set_gpuCount v) d
       | None => Ok d
       end);
  tokenizer ← getitem model_config "tokenizer";
  batch_size ← getitem model_config "batch_size";
  d ← update_task0
        (set_arguments0
           ("python scripts/" +:+ script
            +:+ " --model " +:+ model
            +:+ " --tokenizer " +:+ py_str tokenizer
            +:+ " --batch_size " +:+ py_str batch_size)) d;
  chat_template ← getitem model_config "chat_template";
  d ← (if is_not_none chat_template then
         update_task0
           (append_arguments0 (" --chat_template " +:+ py_str chat_template))
           d
       else Ok d);
  trust_remote_code ← getitem model_config "trust_remote_code";
  d ← (if truthy trust_remote_code then
         update_task0 (append_arguments0 " --trust_remote_code") d
       else Ok d);
  d ← (if negb (upload_to_hub a) then
         update_task0 (append_arguments0 " --do_not_save") d
       else Ok d);
  d ← (if eval_on_pref_sets a then
         update_task0 (append_arguments0 " --pref_sets") d
       else Ok d);
  match model_config !! "ref_model" with
  | Some ref_model =>
      if negb (ref_free a) then
        update_task0
          (append_arguments0 (" --ref_model " +:+ py_str ref_model)) d
      else Ok d
  | None => Ok d
  end.

(** The body of the loop over the models. *)
Definition submit_model (a : args) (configs : configs_t) (d1 : document)
    (model : string) : sub_m unit :=
  model_config ← lift (configs_get configs model);
  eval_dpo ← lift (getitem model_config "dpo");
  if skipped a eval_dpo then sub_ret ()
  else
    let '(experiment_group, script) := select_script a eval_dpo in
    let name := job_name model experiment_group in
    d ← lift (fill_document a d1 model model_config script name);
    _ ← ensure_auto_created;
    let fn := "beaker_configs/auto_created/" +:+ name +:+ ".yaml" in
    _ ← emit (EvWriteYaml fn d);
    let cmd :=
      "beaker experiment create " +:+ fn
      +:+ " --workspace ai2/rewardbench" in
    emit (EvPopen cmd).

Fixpoint sweep (a : args) (configs : configs_t) (d1 : document)
    (models_to_evaluate : list string) : sub_m unit :=
  match models_to_evaluate with
  | [] => sub_ret ()
  | model :: rest =>
      _ ← submit_model a configs d1 model; sweep a configs d1 rest
  end.

(** [models_to_evaluate], restricted to [--model] when it is given. *)
Definition select_models (a : args) (configs : configs_t)
  : result (list string) :=
  let models_to_evaluate := keys configs in
  match model a with
  | Some m =>
      if bool_decide (m ∈ models_to_evaluate) then Ok [m]
      else Raise (ValueError ("Model " +:+ m +:+ " not found in configs"))
  | None => Ok models_to_evaluate
  end.

(** The whole script. *)
Definition submit (a : args) (w : world) : sub_m unit :=
  _ ← py_assert (negb (eval_dpo_only a && eval_rm_only a))
        "Only one of eval_dpo_only and eval_rm_only can be True";
  d1 ← read_yaml "scripts/configs/beaker_eval.yaml" (beaker_eval_yaml w);
  let num_gpus := 1 in
  configs ←
    (if eval_on_bon a then
       read_yaml "scripts/configs/eval_bon_configs.yaml"
         (eval_bon_configs_yaml w)
     else
       read_yaml "scripts/configs/eval_configs.yaml" (eval_configs_yaml w));
  _ ← py_assert (negb (eval_on_pref_sets a && eval_on_bon a))
        "Only one of eval_on_pref_sets and eval_on_bon can be True";
  token ← lift (match HF_TOKEN w with
                | Some t => Ok t
                | None =>
                    Raise (AssertionError
                      "HF Token does not exist -- run `Export HF_TOKEN=<your_write_token_here>'")
                end);
  d1 ← lift (update_task0 (set_image_cluster (image a) (cluster a) num_gpus)
               d1);
  d1 ← lift (update_task0 (set_token token) d1);
  models_to_evaluate ← lift (select_models a configs);
  sweep a configs d1 models_to_evaluate.

Definition initial (auto_created_exists : bool) : state :=
  {| auto_created_exists := auto_created_exists; trace := [] |}.

(** ** Reading a trace *)

Definition is_read (e : event) : bool :=
  match e with EvOpenRead _ => true | _ => false end.

(** The job documents written, with their file names. *)
Fixpoint written_docs (tr : list event) : list (string * document) :=
  match tr with
  | [] => []
  | EvWriteYaml fn d :: tr' => (fn, d) :: written_docs tr'
  | _ :: tr' => written_docs tr'
  end.

(** The commands handed to the shell. *)
Fixpoint popen_cmds (tr : list event) : list string :=
  match tr with
  | [] => []
  | EvPopen cmd :: tr' => cmd :: popen_cmds tr'
  | _ :: tr' => popen_cmds tr'
  end.

(** The argument string of a document: [d["tasks"][0]["arguments"][0]]. *)
Definition arguments0 (d : document) : option string :=
  t ← head (tasks d); head (arguments t).

(** A template on which the assignments of the script go through. *)
Definition template_ok (d1 : document) : Prop :=
  ∃ t rest, tasks d1 = t :: rest
            ∧ (6 < length (envVars t))%nat
            ∧ arguments t ≠ [].

(** ** The scenario of one plain reward model *)

Definition modelA_config : model_config :=
  <["dpo" := YBool false]>
    (<["tokenizer" := YStr "t1"]>
       (<["batch_size" := YInt 4]>
          (<["chat_template" := YNull]>
             (<["trust_remote_code" := YBool false]> ∅)))).

Definition scenario_configs : configs_t := [("modelA", modelA_config)].

(** No filter, no single model, none of the two special modes. *)
Definition no_filters (a : args) : Prop :=
  eval_dpo_only a = false ∧ eval_rm_only a = false ∧ model a = None
  ∧ eval_on_bon a = false.

Definition plain_args : args :=
  {| eval_on_pref_sets := false; eval_on_bon := false;
     image := "nathanl/rewardbench_v10";
     cluster := "ai2/allennlp-cirrascale";
     upload_to_hub := true; model := None; ref_free := false;
     eval_dpo_only := false; eval_rm_only := false |}.

Definition sample_env (n : string) : env_var :=
  {| ev_name := n; ev_value := "" |}.

Definition sample_template : document :=
  {| description := "template";
     tasks :=
       [ {| name := "template"; image_beaker := ""; context_cluster := "";
            context_priority := "normal"; resources_gpuCount := YInt 0;
            envVars := map sample_env ["A"; "B"; "C"; "D"; "E"; "F"; "HF_TOKEN"];
            arguments := ["python scripts/run_rm.py"] |} ] |}.

Definition sample_world (token : option string) : world :=
  {| beaker_eval_yaml := Some sample_template;
     eval_bon_configs_yaml := Some [];
     eval_configs_yaml := Some scenario_configs;
     HF_TOKEN := token |}.

End Submitter.

(** * Further notions for the inference runner *)
Module RunnerSpec.
Import Py Runner.

(** The tokenizer a run uses: the one asked for, or the model when none
    (or the empty string) is given. *)
Definition effective_tokenizer (a : args) : string :=
  match tokenizer a with
  | Some t => if String.eqb t "" then model a else t
  | None => model a
  end.

Fixpoint slash_free (s : string) : bool :=
  match s with
  | EmptyString => true
  | String c s' => negb (Ascii.eqb slash c) && slash_free s'
  end.

(** The last character of a string is not a slash (and there is one). *)
Fixpoint ends_without_slash (s : string) : bool :=
  match s with
  | EmptyString => false
  | String c EmptyString => negb (Ascii.eqb slash c)
  | String _ s' => ends_without_slash s'
  end.

(** The rows of a data set with their outcome and their subset, as the
    grouping sees them. *)
Definition labelled_rows {A} (dataset : list A) (outcomes : list Z)
    (subsets : list string) : list ((A * Z) * string) :=
  zip (zip dataset outcomes) subsets.

(** The accuracy on a column of outcomes, as a quotient. *)
Definition column_accuracy (column : list Z) : Q :=
  (inject_Z (py_sum column) / inject_Z (Z.of_nat (length column)))%Q.

(** The summary a core run writes. *)
Definition summary_of (a : args) (c : computed)
    (grouped : gmap string Q) (section : list (string * Q)) : Summary.t :=
  {| Summary.accuracy := c_accuracy c;
     Summary.num_prompts := Z.of_nat (length (c_dataset c));
     Summary.model := model a;
     Summary.ref_model := ref_model a;
     Summary.tokenizer := effective_tokenizer a;
     Summary.chat_template := chat_template a;
     Summary.extra_results := Some grouped;
     Summary.section_results := Some section;
     Summary.section_results_mean :=
       (sum_values section / inject_Z (Z.of_nat (length section)))%Q |}.

(** ** Worlds and command lines to run [main] in *)

Definition world_with (config : model_config) (dataset : list example)
    (sections : gmap string Q → result (list (string * Q))) : world float :=
  {| REWARD_MODEL_CONFIG := {["default" := config]};
     DPO_MODEL_CONFIG := {["default" := config]};
     current_device := 0;
     cuda_is_available := false;
     get_conv_template := λ _, Ok ();
     load_tokenizer := λ _ _, Ok ();
     load_eval_dataset := Ok (dataset, map (λ _, "chat") dataset);
     load_preference_dataset := λ _ _ _, Ok dataset;
     from_pretrained := λ _ _ _, Ok length_classifier;
     calculate_scores_per_section := sections |}.

Definition custom_config : model_config :=
  {| quantized := false; custom_dialogue := true;
     model_type := "Custom Classifier" |}.

Definition twelve_pairs : list example := repeat (pair "ab" "a") 12.

Definition args_of (dataset output_dir model_id : string) (debug : bool)
    (ref_model : option string) (save_all : bool) : args :=
  {| dataset := dataset; split := None; model := model_id;
     ref_model := ref_model; tokenizer := None; chat_template := None;
     not_quantized := false; batch_size := 5; max_length := 512;
     load_json := false; trust_remote_code := false; debug := debug;
     output_dir := output_dir; save_all := save_all;
     force_truncation := false |}.

End RunnerSpec.

(** * Further notions for the sweep submitter *)
Module SubmitterSpec.
Import Py Submitter.

(** The file of a job, and the command that submits it. *)
Definition job_file (name : string) : string :=
  "beaker_configs/auto_created/" +:+ name +:+ ".yaml".

Definition submit_cmd (fn : string) : string :=
  "beaker experiment create " +:+ fn +:+ " --workspace ai2/rewardbench".

Fixpoint has_slash (s : string) : bool :=
  match s with
  | EmptyString => false
  | String c s' => Ascii.eqb c "/" || has_slash s'
  end.

(** The document carries the name in its description and in its first
    task. *)
Definition doc_named (n : string) (d : document) : Prop :=
  description d = n ∧ ∃ t rest, tasks d = t :: rest ∧ name t = n.

(** An assignment into the first task that leaves its name alone. *)
Definition keeps_name (f : task → result task) : Prop :=
  ∀ t t', f t = Ok t' → name t' = name t.

(** The events of a sequence of submitted jobs, from a state in which the
    directory exists or not: per job, the directory is made if it is not
    there, the document is written under a name without slash, and the
    command for that very file is started. *)
Inductive job_events : bool → list event → bool → Prop :=
| je_nil (b : bool) : job_events b [] b
| je_job (b b' : bool) (n : string) (d : document) (rest : list event) :
    has_slash n = false → doc_named n d →
    job_events true rest b' →
    job_events b
      ((if b then [] else [EvMakedirs auto_created])
       ++ [EvWriteYaml (job_file n) d; EvPopen (submit_cmd (job_file n))]
       ++ rest) b'.

Fixpoint makedirs_count (tr : list event) : nat :=
  match tr with
  | [] => 0
  | EvMakedirs _ :: tr' => S (makedirs_count tr')
  | _ :: tr' => makedirs_count tr'
  end.

(** The argument string of an entry: the command with its three arguments,
    then the optional flags in the order of the script. *)
Definition command_line (a : args) (model script : string)
    (tokenizer batch_size chat_template trust_remote_code : yaml)
    (ref_model : option yaml) : string :=
  let s := "python scripts/" +:+ script
           +:+ " --model " +:+ model
           +:+ " --tokenizer " +:+ py_str tokenizer
           +:+ " --batch_size " +:+ py_str batch_size in
  let s := if is_not_none chat_template
           then s +:+ (" --chat_template " +:+ py_str chat_template) else s in
  let s := if truthy trust_remote_code
           then s +:+ " --trust_remote_code" else s in
  let s := if negb (upload_to_hub a) then s +:+ " --do_not_save" else s in
  let s := if eval_on_pref_sets a then s +:+ " --pref_sets" else s in
  match ref_model with
  | Some r =>
      if negb (ref_free a) then s +:+ (" --ref_model " +:+ py_str r) else s
  | None => s
  end.

(** The filter leaves the entry out: [--eval_dpo_only] and the entry is no
    DPO model, or [--eval_rm_only] and it is one. *)
Definition excluded (a : args) (eval_dpo : yaml) : Prop :=
  (eval_dpo_only a = true ∧ truthy eval_dpo = false)
  ∨ (eval_dpo_only a = false ∧ eval_rm_only a = true
     ∧ truthy eval_dpo = true).

(** The document of an entry, from the first task [t] of the template. *)
Definition document_of (a : args) (m : string) (mc : model_config)
    (eval_dpo tokenizer batch_size chat_template trust_remote_code : yaml)
    (t : task) (ar : list string) (rest : list task) : document :=
  let '(experiment_group, script) := select_script a eval_dpo in
  {| description := job_name m experiment_group;
     tasks :=
       {| name := job_name m experiment_group;
          image_beaker := image_beaker t;
          context_cluster := context_cluster t;
          context_priority := context_priority t;
          resources_gpuCount :=
            default (resources_gpuCount t) (mc !! "num_gpus");
          envVars := envVars t;
          arguments :=
            command_line a m script tokenizer batch_size chat_template
              trust_remote_code (mc !! "ref_model") :: ar |} :: rest |}.

(** The keys every entry is read at, in the order of the reads. *)
Definition required_keys : list string :=
  ["dpo"; "tokenizer"; "batch_size"; "chat_template"; "trust_remote_code"].

(** ** A sweep of two entries *)

Definition dpo_config : model_config :=
  <["dpo" := YBool true]>
    (<["tokenizer" := YStr "org/tok"]>
       (<["batch_size" := YInt 2]>
          (<["chat_template" := YStr "tulu"]>
             (<["trust_remote_code" := YBool true]>
                (<["ref_model" := YStr "org/ref"]>
                   (<["num_gpus" := YInt 2]> ∅)))))).

(** An entry without its tokenizer. *)
Definition broken_config : model_config :=
  <["dpo" := YBool false]> (<["batch_size" := YInt 2]> ∅).

Definition two_configs : configs_t :=
  [("modelA", modelA_config); ("org/dpo", dpo_config)].

Definition broken_configs : configs_t :=
  [("modelA", modelA_config); ("bad", broken_config); ("org/dpo", dpo_config)].

Definition tiny_task : task :=
  {| name := "template"; image_beaker := ""; context_cluster := "";
     context_priority := "normal"; resources_gpuCount := YInt 0;
     envVars := []; arguments := ["x"] |}.

Definition tiny_template : document :=
  {| description := "template"; tasks := [tiny_task] |}.

Definition world_of (configs : configs_t) : world :=
  {| beaker_eval_yaml := Some sample_template;
     eval_bon_configs_yaml := Some configs;
     eval_configs_yaml := Some configs;
     HF_TOKEN := Some "hf_token" |}.

Definition args_with (single : option string) (dpo_only rm_only : bool)
  : args :=
  {| eval_on_pref_sets := false; eval_on_bon := false;
     image := "nathanl/rewardbench_v10";
     cluster := "ai2/allennlp-cirrascale";
     upload_to_hub := true; model := single; ref_free := false;
     eval_dpo_only := dpo_only; eval_rm_only := rm_only |}.

End SubmitterSpec.

(** * Properties of the inference runner *)
Module RunnerProps.
Import Py Runner.

(** ** Substrings *)

Lemma prefix_spec (p s : string) :
  String.prefix p s = true ↔ ∃ post, s = p +:+ post.
Proof.
  revert s. induction p as [|c p IH]; intros s; simpl.
  - split; [intros _; exists s; reflexivity | intros _; destruct s; reflexivity].
  - destruct s as [|c' s]; simpl.
    + split; [discriminate | intros [post H]; discriminate].
    + destruct (Ascii.ascii_dec c c') as [->|Hne].
      * rewrite IH. split; intros [post H]; exists post.
        -- simpl. now rewrite H.
        -- simpl in H. now inversion H.
      * split; [discriminate|]. intros [post H]. simpl in H. inversion H; congruence.
Qed.

Lemma str_contains_spec (sub s : string) :
  str_contains sub s = true ↔ occurs_in sub s.
Proof.
  unfold occurs_in. induction s as [|c s IH].
  - cbn [str_contains]. rewrite orb_false_r, prefix_spec. split.
    + intros [post H]. exists "", post. exact H.
    + intros (pre & post & H). destruct pre; [eauto|discriminate].
  - cbn [str_contains]. rewrite orb_true_iff, prefix_spec, IH. split.
    + intros [[post H] | (pre & post & H)].
      * exists "", post. exact H.
      * exists (String c pre), post. simpl. now rewrite H.
    + intros (pre & post & H). destruct pre as [|c' pre].
      * left. exists post. exact H.
      * right. simpl in H. inversion H. eauto.
Qed.

Lemma llama3_check (a : args) :
  str_contains "llama-3" (model a) || str_contains "Llama3" (model a)
  || str_contains "Llama-3" (model a) || str_contains "LLaMA3" (model a)
  || not_quantized a = true
  ↔ forced_unquantized a.
Proof.
  unfold forced_unquantized, llama3_tags.
  rewrite !orb_true_iff, !str_contains_spec. split.
  - intros [[[[H|H]|H]|H]|H]; [left; eexists; split; [|exact H]; set_solver.. | right; exact H].
  - intros [(tag & Hin & H) | H]; [|tauto].
    repeat (apply elem_of_cons in Hin; destruct Hin as [->|Hin]; [tauto|]).
    now apply elem_of_nil in Hin.
Qed.

(** ** The inference loop *)

Section Loop.
Context {num : Type} `{Scalar num}.
Variable model : LlamaForPreferencePrediction num.

Lemma step_unfold (st : loop_state) (batch : list example) :
  step model st batch
  = {| results :=
         results st ++ map outcome (map s_item (batch_logits model batch));
       scores_margin :=
         scores_margin st ++ map s_item (batch_logits model batch);
       forward_calls :=
         forward_calls st
         ++ [map text_chosen batch; map text_rejected batch] |}.
Proof.
  unfold step, reward_pipe, batch_logits, forward. cbn.
  now rewrite <- app_assoc.
Qed.

(** The state after a whole run, from any starting state. *)
Lemma run_from (dl : list (list example)) (st : loop_state) :
  fold_left (step model) dl st
  = {| results := results st ++ map outcome (run_margins model dl);
       scores_margin := scores_margin st ++ run_margins model dl;
       forward_calls :=
         forward_calls st
         ++ concat (map (λ b, [map text_chosen b; map text_rejected b]) dl) |}.
Proof.
  revert st. induction dl as [|batch dl IH]; intros st.
  - destruct st. cbn. now rewrite !app_nil_r.
  - cbn [fold_left]. rewrite IH, step_unfold. cbn.
    unfold run_margins. cbn [map concat].
    now rewrite map_app, <- !app_assoc.
Qed.

Lemma run_inference_results (dl : list (list example)) :
  results (run_inference model dl)
  = map outcome (scores_margin (run_inference model dl)).
Proof. unfold run_inference. now rewrite run_from. Qed.

End Loop.

Lemma outcome_cases (m : float) :
  (outcome m = 1 ∧ (0 <? m)%float = true)
  ∨ (outcome m = 0 ∧ (0 <? m)%float = false).
Proof. unfold outcome. destruct (0 <? m)%float; auto. Qed.

(** A margin that compares equal to zero, of either sign, is not above
    zero. *)
Lemma zero_margin_not_positive (m : float) :
  (m =? 0)%float = true → (0 <? m)%float = false.
Proof.
  intros Hm. rewrite FloatAxioms.eqb_spec in Hm. rewrite FloatAxioms.ltb_spec.
  revert Hm. unfold SFeqb, SFltb.
  change (Prim2SF 0) with (S754_zero false).
  destruct (Prim2SF m) as [s|s| |s mm e]; try destruct s; cbn; congruence.
Qed.

Example outcome_of_zero :
  outcome 0 = 0 ∧ outcome (-0) = 0 ∧ outcome 2 = 1 ∧ outcome (-1) = 0.
Proof. repeat split. Qed.

(** ** The loader *)

Lemma batches_fuel_concat {A} (fuel bs : nat) (l : list A) :
  (0 < bs)%nat → (length l ≤ fuel)%nat →
  concat (batches_fuel fuel bs l) = l.
Proof.
  intros Hbs. revert l. induction fuel as [|fuel IH]; intros l Hlen.
  - destruct l; [reflexivity | cbn in Hlen; lia].
  - destruct l as [|x l]; [reflexivity|].
    cbn [batches_fuel concat]. rewrite IH.
    + apply take_drop.
    + rewrite length_drop. cbn in *. lia.
Qed.

(** The batches are the data set, cut in order. *)
Lemma batches_concat {A} (bs : nat) (l : list A) :
  (0 < bs)%nat → concat (batches bs l) = l.
Proof. intros Hbs. now apply batches_fuel_concat. Qed.

Lemma DataLoader_ok {A} (dataset : list A) (batch_size : Z) :
  0 < batch_size →
  DataLoader dataset batch_size = Ok (batches (Z.to_nat batch_size) dataset).
Proof.
  intros Hbs. unfold DataLoader.
  destruct (Z.leb_spec batch_size 0); [lia | reflexivity].
Qed.

(** ** One outcome and one margin per example *)

Section Lockstep.
Context {num : Type} `{Scalar num}.
Variable model : LlamaForPreferencePrediction num.
Hypothesis shape : logits_shape (super_forward model).

Lemma batch_logits_length (batch : list example) :
  length (batch_logits model batch) = length batch.
Proof.
  unfold batch_logits, forward. cbn.
  unfold pair_logits, tsum_dim1, tsub, tmul.
  rewrite length_map, !length_zip_with, !length_map.
  rewrite !(proj1 (shape _ _)), !length_map. lia.
Qed.

Lemma run_margins_length (dl : list (list example)) :
  length (run_margins model dl) = length (concat dl).
Proof.
  unfold run_margins. induction dl as [|batch dl IH]; [reflexivity|].
  cbn [map concat]. rewrite !length_app, length_map, batch_logits_length.
  now rewrite IH.
Qed.

Lemma run_lengths (dl : list (list example)) :
  length (results (fold_left (step model) dl loop_init)) = length (concat dl)
  ∧ length (scores_margin (fold_left (step model) dl loop_init))
    = length (concat dl).
Proof.
  rewrite run_from. cbn. now rewrite length_map, run_margins_length.
Qed.

End Lockstep.

(** C3: the loader cuts any data set into batches, and after every batch
    the list of outcomes and the list of margins are as long as the examples
    seen so far; after the last batch both are as long as the data set. *)
Theorem outcomes_margins_lockstep {num : Type} `{Scalar num}
    (model : LlamaForPreferencePrediction num)
    (dataset : list example) (batch_size : Z) :
  logits_shape (super_forward model) → 0 < batch_size →
  ∃ dataloader,
    DataLoader dataset batch_size = Ok dataloader
    ∧ concat dataloader = dataset
    ∧ (∀ n, let st := fold_left (step model) (take n dataloader) loop_init in
            length (results st) = length (concat (take n dataloader))
            ∧ length (scores_margin st) = length (concat (take n dataloader)))
    ∧ length (results (run_inference model dataloader)) = length dataset
    ∧ length (scores_margin (run_inference model dataloader))
      = length dataset.
Proof.
  intros Hshape Hbs. exists (batches (Z.to_nat batch_size) dataset).
  assert (Hcat : concat (batches (Z.to_nat batch_size) dataset) = dataset)
    by (apply batches_concat; lia).
  split; [now apply DataLoader_ok|]. split; [exact Hcat|]. split.
  - intros n. cbv zeta. now apply run_lengths.
  - unfold run_inference.
    destruct (run_lengths model Hshape (batches (Z.to_nat batch_size) dataset))
      as [Hr Hm].
    rewrite Hr, Hm, Hcat. auto.
Qed.

Lemma length_classifier_shape : logits_shape length_classifier.
Proof.
  intros n xs. unfold length_classifier. split; [apply length_map|].
  induction xs as [|x xs IH]; cbn [map]; constructor; [|exact IH].
  rewrite length_take. cbn [length]. rewrite repeat_length. lia.
Qed.

Lemma outcomes_margins_lockstep_witness :
  ∃ dataloader,
    DataLoader sample_dataset 3 = Ok dataloader
    ∧ length (results (run_inference (init length_classifier 1) dataloader))
      = 4%nat.
Proof.
  destruct (outcomes_margins_lockstep (init length_classifier 1)
              sample_dataset 3 length_classifier_shape ltac:(lia))
    as (dl & Hdl & _ & _ & Hres & _).
  exists dl. split; [exact Hdl | exact Hres].
Defined.

(** ** The outcome and the margin of every example *)

(** Where an element of the concatenation of batches comes from. *)
Lemma concat_lookup_split {A} (ls : list (list A)) (i : nat) (x : A) :
  concat ls !! i = Some x →
  ∃ b j l, ls !! b = Some l ∧ l !! j = Some x
           ∧ i = (length (concat (take b ls)) + j)%nat.
Proof.
  revert i. induction ls as [|l ls IH]; intros i Hi; [discriminate|].
  cbn [concat] in Hi. apply lookup_app_Some in Hi as [Hi | [Hlen Hi]].
  - exists 0%nat, i, l. split; [reflexivity|]. split; [exact Hi | reflexivity].
  - destruct (IH _ Hi) as (b & j & l' & Hb & Hj & Heq).
    exists (S b), j, l'. split; [exact Hb|]. split; [exact Hj|].
    cbn [take concat]. rewrite length_app. lia.
Qed.

(** The element at a place of a batch, read in the concatenation. *)
Lemma concat_lookup_at {A} (ls : list (list A)) (b j : nat) (l : list A) :
  ls !! b = Some l → (j < length l)%nat →
  concat ls !! (length (concat (take b ls)) + j)%nat = l !! j.
Proof.
  revert b. induction ls as [|l0 ls IH]; intros b Hb Hj; [discriminate|].
  destruct b as [|b].
  - inversion Hb; subst. cbn [take concat length]. rewrite Nat.add_0_l.
    now apply lookup_app_l.
  - cbn [take concat]. rewrite length_app, <- Nat.add_assoc.
    rewrite lookup_app_r by lia.
    replace (length l0 + (length (concat (take b ls)) + j) - length l0)%nat
      with (length (concat (take b ls)) + j)%nat by lia.
    now apply IH.
Qed.

Lemma concat_take_fmap_length {A B} (f : list A → list B)
    (ls : list (list A)) (b : nat) :
  (∀ l, length (f l) = length l) →
  length (concat (take b (map f ls))) = length (concat (take b ls)).
Proof.
  intros Hf. revert b. induction ls as [|l ls IH]; intros b.
  - now destruct b.
  - destruct b as [|b]; [reflexivity|].
    cbn [map take concat]. now rewrite !length_app, Hf, IH.
Qed.

Section Margins.
Context {num : Type} `{Scalar num}.
Variable model : LlamaForPreferencePrediction num.
Hypothesis shape : logits_shape (super_forward model).

(** The margin of the example at place [j] of batch [b] is recorded at the
    place of the example in the data set. *)
Lemma run_margins_lookup (dl : list (list example)) (b j : nat)
    (batch : list example) :
  dl !! b = Some batch → (j < length batch)%nat →
  run_margins model dl !! (length (concat (take b dl)) + j)%nat
  = s_item <$> batch_logits model batch !! j.
Proof.
  intros Hb Hj. unfold run_margins.
  set (f := λ batch : list example, map s_item (batch_logits model batch)).
  assert (Hf : ∀ l, length (f l) = length l)
    by (intros l; unfold f;
        now rewrite length_map, (batch_logits_length model shape)).
  rewrite <- (concat_take_fmap_length f dl b Hf).
  rewrite (concat_lookup_at (map f dl) b j (f batch)).
  - unfold f. change (map s_item ?l) with (s_item <$> l).
    apply list_lookup_fmap.
  - change (map f dl) with (f <$> dl). now rewrite list_lookup_fmap, Hb.
  - now rewrite Hf.
Qed.

End Margins.

(** C2: the loader cuts any data set into batches, and the run records, for
    every example of the data set and at the place of the example, the
    margin the model gives it in its batch and an outcome; the outcome is 1
    exactly when that margin is strictly above 0 and is 0 otherwise, so that
    a margin equal to 0 gives the outcome 0. *)
Theorem outcome_iff_positive_margin {num : Type} `{Scalar num}
    (model : LlamaForPreferencePrediction num)
    (dataset : list example) (batch_size : Z) :
  logits_shape (super_forward model) → 0 < batch_size →
  ∃ dataloader,
    DataLoader dataset batch_size = Ok dataloader
    ∧ let st := run_inference model dataloader in
      ∀ (i : nat) (e : example),
        dataset !! i = Some e →
        ∃ (b j : nat) (batch : list example) (logit : num) (m : float) (o : Z),
          dataloader !! b = Some batch
          ∧ batch !! j = Some e
          ∧ i = (length (concat (take b dataloader)) + j)%nat
          ∧ batch_logits model batch !! j = Some logit
          ∧ m = s_item logit
          ∧ scores_margin st !! i = Some m
          ∧ results st !! i = Some o
          ∧ o = (if (0 <? m)%float then 1 else 0)
          ∧ (o = 1 ↔ (0 <? m)%float = true)
          ∧ (o = 0 ↔ (0 <? m)%float = false)
          ∧ ((m =? 0)%float = true → o = 0).
Proof.
  intros Hshape Hbs. exists (batches (Z.to_nat batch_size) dataset).
  split; [now apply DataLoader_ok|]. cbv zeta. intros i e He.
  set (dl := batches (Z.to_nat batch_size) dataset).
  assert (Hcat : concat dl = dataset) by (apply batches_concat; lia).
  rewrite <- Hcat in He.
  destruct (concat_lookup_split dl i e He) as (b & j & batch & Hb & Hj & Hi).
  assert (Hlt : (j < length batch)%nat) by (eapply lookup_lt_Some; eauto).
  destruct (lookup_lt_is_Some_2 (batch_logits model batch) j) as [logit Hl];
    [now rewrite batch_logits_length|].
  assert (Hm : scores_margin (run_inference model dl) !! i
               = Some (s_item logit)).
  { unfold run_inference. rewrite run_from. cbn [scores_margin loop_init app].
    subst i. rewrite (run_margins_lookup model Hshape dl b j batch Hb Hlt).
    now rewrite Hl. }
  exists b, j, batch, logit, (s_item logit), (outcome (s_item logit)).
  split; [exact Hb|]. split; [exact Hj|]. split; [exact Hi|].
  split; [exact Hl|]. split; [reflexivity|]. split; [exact Hm|]. split.
  { rewrite run_inference_results. change (map outcome ?l) with (outcome <$> l).
    now rewrite list_lookup_fmap, Hm. }
  split; [reflexivity|].
  pose proof (zero_margin_not_positive (s_item logit)) as Hz.
  destruct (outcome_cases (s_item logit)) as [[-> Hp] | [-> Hp]]; rewrite Hp;
    repeat split; try done; intros Hm0; specialize (Hz Hm0); congruence.
Qed.

Lemma outcome_iff_positive_margin_witness :
  ∃ dataloader,
    DataLoader sample_dataset 3 = Ok dataloader
    ∧ ∃ m o,
        scores_margin (run_inference (init length_classifier 1) dataloader)
          !! 2%nat = Some m
        ∧ results (run_inference (init length_classifier 1) dataloader)
            !! 2%nat = Some o
        ∧ (o = 1 ↔ (0 <? m)%float = true).
Proof.
  destruct (outcome_iff_positive_margin (init length_classifier 1)
              sample_dataset 3 length_classifier_shape ltac:(lia))
    as (dl & Hdl & Hall).
  exists dl. split; [exact Hdl|].
  destruct (Hall 2%nat (pair "ab" "cd") eq_refl)
    as (b & j & batch & logit & m & o & _ & _ & _ & _ & _ & Hm & Ho & _ & H1 & _).
  exists m, o. split; [exact Hm|]. split; [exact Ho | exact H1].
Defined.

(** The run of the sample data set, in batches of three: the margins 2, -1,
    0 and 5 give the outcomes 1, 0, 0 and 1. *)
Example sample_run_outcomes :
  ∃ dataloader,
    DataLoader sample_dataset 3 = Ok dataloader
    ∧ scores_margin (run_inference (init length_classifier 1) dataloader)
      = [2; -1; 0; 5]%float
    ∧ results (run_inference (init length_classifier 1) dataloader)
      = [1; 0; 0; 1].
Proof. eexists. split; [reflexivity|]. split; vm_compute; reflexivity. Qed.

(** ** The score of a pair *)

Section Score.
Context {num : Type} `{Scalar num}.

(** The slices [[:k]] and [[k:]] of two rows of width [2k], multiplied and
    subtracted, are the terms of the score dimension by dimension. *)
Lemma row_terms (k : nat) (c r : list num) :
  length c = (2 * k)%nat → length r = (2 * k)%nat →
  zip_with s_sub (zip_with s_mul (take k c) (drop k r))
                 (zip_with s_mul (take k r) (drop k c))
  = map (λ j, s_sub (s_mul (nth j c s_zero) (nth (k + j) r s_zero))
                    (s_mul (nth j r s_zero) (nth (k + j) c s_zero)))
        (seq 0 k).
Proof.
  intros Hc Hr. apply list_eq. intros j.
  change (map ?f ?l) with (f <$> l).
  rewrite !lookup_zip_with, list_lookup_fmap, !lookup_drop.
  destruct (decide (j < k)%nat) as [Hj|Hj].
  - rewrite !lookup_take_lt, lookup_seq_lt by lia.
    destruct (lookup_lt_is_Some_2 c j ltac:(lia)) as [cj Hcj].
    destruct (lookup_lt_is_Some_2 r j ltac:(lia)) as [rj Hrj].
    destruct (lookup_lt_is_Some_2 c (k + j) ltac:(lia)) as [ckj Hckj].
    destruct (lookup_lt_is_Some_2 r (k + j) ltac:(lia)) as [rkj Hrkj].
    rewrite Hcj, Hrj, Hckj, Hrkj. cbn.
    rewrite !nth_lookup, Hcj, Hrj, Hckj, Hrkj. reflexivity.
  - rewrite !lookup_take_ge, lookup_seq_ge by lia. reflexivity.
Qed.

Lemma row_score (k : nat) (c r : list num) :
  length c = (2 * k)%nat → length r = (2 * k)%nat →
  row_sum (zip_with s_sub (zip_with s_mul (take k c) (drop k r))
                          (zip_with s_mul (take k r) (drop k c)))
  = preference_score k c r.
Proof.
  intros Hc Hr. unfold row_sum, preference_score. now rewrite row_terms.
Qed.

Variable base : seq_classifier num.
Hypothesis shape : logits_shape base.

Lemma batch_logits_lookup (k i : nat) (batch : list example)
    (c r : list num) :
  base (2 * k)%nat (map text_chosen batch) !! i = Some c →
  base (2 * k)%nat (map text_rejected batch) !! i = Some r →
  batch_logits (init base k) batch !! i = Some (preference_score k c r).
Proof.
  intros Hc Hr.
  pose proof (Forall_lookup_1 _ _ _ _ (proj2 (shape _ _)) Hc) as Hlc.
  pose proof (Forall_lookup_1 _ _ _ _ (proj2 (shape _ _)) Hr) as Hlr.
  unfold batch_logits, forward, init.
  cbn [negb output_uv num_pref_rank config_num_labels super_forward].
  unfold pair_logits, tsum_dim1, tsub, tmul.
  repeat change (map ?f ?l) with (f <$> l).
  rewrite list_lookup_fmap, !lookup_zip_with, !list_lookup_fmap.
  repeat change (text_chosen <$> ?l) with (map text_chosen l).
  repeat change (text_rejected <$> ?l) with (map text_rejected l).
  rewrite Hc, Hr. cbn. now rewrite row_score.
Qed.

End Score.

(** C1: one step of the loop runs the forward pass once on the chosen texts
    and once on the rejected texts of the batch, under the same model, and
    the margin it records for every example is the sum over the [k] rank
    dimensions of [u_chosen * v_rejected - u_rejected * v_chosen], with [u]
    the first [k] and [v] the last [k] logits of the row that pass gives
    for the text. *)
Theorem preference_score_of_batch {num : Type} `{Scalar num}
    (base : seq_classifier num) (k : nat) (st : loop_state)
    (batch : list example) :
  logits_shape base →
  let reward_model := init base k in
  let chosen := base (2 * k)%nat (map text_chosen batch) in
  let rejected := base (2 * k)%nat (map text_rejected batch) in
  let st' := step reward_model st batch in
  forward_calls st'
  = forward_calls st ++ [map text_chosen batch; map text_rejected batch]
  ∧ ∀ (i : nat) (e : example),
      batch !! i = Some e →
      ∃ c r,
        chosen !! i = Some c ∧ rejected !! i = Some r
        ∧ length c = (2 * k)%nat ∧ length r = (2 * k)%nat
        ∧ scores_margin st' !! (length (scores_margin st) + i)%nat
          = Some (s_item (preference_score k c r)).
Proof.
  intros Hshape reward_model chosen rejected st'. subst st'.
  rewrite step_unfold. cbn [forward_calls scores_margin]. split; [reflexivity|].
  intros i e He. apply lookup_lt_Some in He.
  destruct (lookup_lt_is_Some_2 chosen i) as [c Hc].
  { subst chosen. rewrite (proj1 (Hshape _ _)), length_map. exact He. }
  destruct (lookup_lt_is_Some_2 rejected i) as [r Hr].
  { subst rejected. rewrite (proj1 (Hshape _ _)), length_map. exact He. }
  exists c, r. split; [exact Hc|]. split; [exact Hr|].
  split; [exact (Forall_lookup_1 _ _ _ _ (proj2 (Hshape _ _)) Hc)|].
  split; [exact (Forall_lookup_1 _ _ _ _ (proj2 (Hshape _ _)) Hr)|].
  rewrite lookup_app_r by lia.
  replace (length (scores_margin st) + i - length (scores_margin st))%nat
    with i by lia.
  change (map s_item ?l) with (s_item <$> l).
  rewrite list_lookup_fmap.
  subst reward_model. now rewrite (batch_logits_lookup base Hshape k i batch c r Hc Hr).
Qed.

Lemma preference_score_of_batch_witness :
  scores_margin (step (init length_classifier 1) loop_init sample_dataset)
  = [2%float; (-1)%float; 0%float; 5%float]
  ∧ ∃ c r,
      length_classifier 2%nat (map text_chosen sample_dataset) !! 0%nat = Some c
      ∧ length_classifier 2%nat (map text_rejected sample_dataset) !! 0%nat = Some r
      ∧ scores_margin (step (init length_classifier 1) loop_init sample_dataset)
          !! 0%nat
        = Some (s_item (preference_score 1 c r)).
Proof.
  split; [vm_compute; reflexivity|].
  destruct (preference_score_of_batch length_classifier 1 loop_init
              sample_dataset length_classifier_shape) as [_ Hscore].
  destruct (Hscore 0%nat (pair "abc" "a") eq_refl)
    as (c & r & Hc & Hr & _ & _ & Hm).
  exists c, r. split; [exact Hc|]. split; [exact Hr | exact Hm].
Defined.

(** ** Accuracy *)

Lemma py_sum_acc (l : list Z) (a : Z) : fold_left Z.add l a = a + py_sum l.
Proof.
  unfold py_sum. revert a. induction l as [|x l IH]; intros a.
  - cbn. lia.
  - cbn [fold_left]. rewrite (IH (a + x)), (IH (0 + x)). lia.
Qed.

Lemma py_sum_cons (x : Z) (l : list Z) : py_sum (x :: l) = x + py_sum l.
Proof. unfold py_sum at 1. cbn. apply py_sum_acc. Qed.

(** On outcomes, the sum is the number of ones. *)
Lemma py_sum_count (l : list Z) :
  Forall (λ o, o = 0 ∨ o = 1) l → py_sum l = Z.of_nat (count_ones l).
Proof.
  unfold count_ones. induction 1 as [|x l Hx _ IH]; [reflexivity|].
  rewrite py_sum_cons, IH, filter_cons.
  destruct Hx as [-> | ->]; case_decide; try done; cbn [length]; lia.
Qed.

Lemma count_ones_le (l : list Z) : (count_ones l ≤ length l)%nat.
Proof. apply length_filter. Qed.

Lemma outcomes_binary (margins : list float) :
  Forall (λ o, o = 0 ∨ o = 1) (map outcome margins).
Proof.
  induction margins as [|m ms IH]; cbn [map]; constructor; [|exact IH].
  unfold outcome. destruct (0 <? m)%float; auto.
Qed.

Lemma accuracy_bounds (ones total : nat) :
  (ones ≤ total)%nat → (0 < total)%nat →
  (0 <= inject_Z (Z.of_nat ones) / inject_Z (Z.of_nat total))%Q
  ∧ (inject_Z (Z.of_nat ones) / inject_Z (Z.of_nat total) <= 1)%Q.
Proof.
  intros Hle Hpos.
  assert (Htot : (0 < inject_Z (Z.of_nat total))%Q).
  { change 0%Q with (inject_Z 0). rewrite <- Zlt_Qlt. lia. }
  split.
  - apply Qle_shift_div_l; [exact Htot|]. rewrite Qmult_0_l.
    change 0%Q with (inject_Z 0). rewrite <- Zle_Qle. lia.
  - apply Qle_shift_div_r; [exact Htot|]. rewrite Qmult_1_l.
    rewrite <- Zle_Qle. lia.
Qed.

Lemma compute_accuracy_nonempty (results : list Z) :
  results ≠ [] →
  compute_accuracy results
  = Ok (inject_Z (py_sum results) / inject_Z (Z.of_nat (length results)))%Q.
Proof.
  intros Hne. unfold compute_accuracy, true_div.
  destruct results as [|o results]; [done|]. cbn [length].
  destruct (Z.eqb_spec (Z.of_nat (S (length results))) 0); [lia | reflexivity].
Qed.

(** C4, as the code has it: for a run with at least one outcome, the
    accuracy is the number of outcomes equal to 1 divided by the number of
    outcomes, and lies between 0 and 1; with no outcome at all the division
    is attempted all the same and raises [ZeroDivisionError]. *)
Theorem accuracy_of_run {num : Type} `{Scalar num}
    (model : LlamaForPreferencePrediction num)
    (dataloader : list (list example)) :
  let outcomes := results (run_inference model dataloader) in
  (outcomes ≠ [] →
     ∃ q, compute_accuracy outcomes = Ok q
          ∧ q = (inject_Z (Z.of_nat (count_ones outcomes))
                 / inject_Z (Z.of_nat (length outcomes)))%Q
          ∧ (0 <= q)%Q ∧ (q <= 1)%Q)
  ∧ (outcomes = [] → compute_accuracy outcomes = Raise ZeroDivisionError).
Proof.
  intros outcomes. split.
  - intros Hne. eexists. split; [now apply compute_accuracy_nonempty|].
    assert (Hbin : Forall (λ o, o = 0 ∨ o = 1) outcomes).
    { subst outcomes. rewrite run_inference_results. apply outcomes_binary. }
    rewrite (py_sum_count _ Hbin). split; [reflexivity|].
    apply accuracy_bounds; [apply count_ones_le|].
    destruct outcomes; [done | cbn; lia].
  - intros ->. reflexivity.
Qed.

(** The division is not guarded: a run of [main] on an empty data set ends
    in [ZeroDivisionError]. *)
Lemma empty_dataset_divides_by_zero :
  compute_accuracy [] = Raise ZeroDivisionError
  ∧ (main (sample_world []) (sample_args core_dataset "results/") empty_os).2
    = Raise ZeroDivisionError.
Proof. split; vm_compute; reflexivity. Qed.

(** The scenario with margins 2, -1, 0 and 5. *)
Example sample_run_accuracy :
  ∃ c, compute (sample_world sample_dataset)
         (sample_args core_dataset "results/") = Ok c
       ∧ results (c_loop c) = [1; 0; 0; 1]
       ∧ scores_margin (c_loop c) = [2%float; (-1)%float; 0%float; 5%float]
       ∧ (c_accuracy c == 1 # 2)%Q.
Proof. eexists. split; [vm_compute; reflexivity|]. repeat split. Qed.

(** ** Writing the summary *)

Lemma summaries_written_app (l1 l2 : list os_event) :
  summaries_written (l1 ++ l2) = summaries_written l1 ++ summaries_written l2.
Proof.
  induction l1 as [|e l1 IH]; [reflexivity|].
  destruct e as [| | |p []]; cbn; now rewrite ?IH.
Qed.

Lemma os_bind_unfold {A B} (m : os_m A) (k : A → os_m B) (st : os_state) :
  (m ≫= k) st = match m st with
                | (st', Ok x) => k x st'
                | (st', Raise e) => (st', Raise e)
                end.
Proof. reflexivity. Qed.

(** [os.makedirs] touches nothing when it raises, and otherwise makes the
    directory and its ancestors and logs the call. *)
Lemma os_makedirs_fail (name : string) (st st1 : os_state) (e : exn) :
  os_makedirs name st = (st1, Raise e) → st1 = st.
Proof.
  unfold os_makedirs. destruct (String.eqb name ""); [congruence|].
  destruct (blocked _ _); [congruence|].
  destruct (fs st !! name) as [[|]|]; congruence.
Qed.

Lemma os_makedirs_ok (name : string) (st st1 : os_state) :
  os_makedirs name st = (st1, Ok ()) →
  oplog st1 = oplog st ++ [EvMakedirs name]
  ∧ fs st1 = make_dirs (ancestors name ++ [name]) (fs st)
  ∧ name ≠ ""
  ∧ blocked (fs st) (ancestors name ++ [name]) = None
  ∧ is_file (fs st !! name) = false.
Proof.
  unfold os_makedirs. destruct (String.eqb_spec name ""); [congruence|].
  destruct (blocked _ _); [congruence|].
  destruct (fs st !! name) as [[|]|]; intros H; inversion H; auto.
Qed.

(** What [make_dirs] leaves at a path. *)
Lemma make_dirs_in (paths : list string) (m : gmap string node) (p : string) :
  p ∈ paths → make_dirs paths m !! p = Some Dir.
Proof.
  induction paths as [|q paths IH]; [now rewrite elem_of_nil|].
  rewrite elem_of_cons. cbn [make_dirs foldr]. intros Hp.
  destruct (String.eqb_spec q p) as [->|Hne].
  - apply lookup_insert_eq.
  - rewrite lookup_insert_ne by exact Hne. apply IH.
    destruct Hp as [->|Hp]; [congruence | exact Hp].
Qed.

Lemma make_dirs_out (paths : list string) (m : gmap string node) (p : string) :
  p ∉ paths → make_dirs paths m !! p = m !! p.
Proof.
  induction paths as [|q paths IH]; [reflexivity|].
  rewrite not_elem_of_cons. intros [Hne Hp]. cbn [make_dirs foldr].
  rewrite lookup_insert_ne by congruence. now apply IH.
Qed.

(** No [mkdir] of a chain fails when none of its paths but the last is a
    regular file, and one does otherwise. *)
Lemma blocked_none (m : gmap string node) (chain : list string) (name : string) :
  (∀ p, p ∈ chain → is_file (m !! p) = false) →
  blocked m (chain ++ [name]) = None.
Proof.
  induction chain as [|p chain IH]; [reflexivity|].
  intros Hall. cbn [app blocked].
  destruct (chain ++ [name]) as [|q rest] eqn:Hc;
    [now destruct chain|].
  rewrite (Hall p) by apply list_elem_of_here.
  apply IH. intros p' Hp'. apply Hall. now apply list_elem_of_further.
Qed.

Lemma blocked_some (m : gmap string node) (chain : list string) (name p : string) :
  p ∈ chain → is_file (m !! p) = true →
  ∃ q, blocked m (chain ++ [name]) = Some q ∧ q ∈ chain ++ [name].
Proof.
  induction chain as [|p' chain IH]; [now rewrite elem_of_nil|].
  rewrite elem_of_cons. intros Hp Hfile. cbn [app blocked].
  destruct (chain ++ [name]) as [|q rest] eqn:Hc;
    [now destruct chain|].
  destruct (is_file (m !! p')) eqn:Hp'.
  - exists q. split; [reflexivity|].
    apply list_elem_of_further, list_elem_of_here.
  - destruct Hp as [->|Hp]; [congruence|].
    destruct (IH Hp Hfile) as (q' & Hq' & Hin).
    exists q'. split; [exact Hq' | now apply list_elem_of_further].
Qed.

Section Prepare.
Context {A : Type}.
Variable path : string.
Variable k : os_m A.

(** The lines that come before each write: make the directory, remove the
    file if there is one, open it for writing. *)
Local Abbreviation prepare :=
  (_ ← os_makedirs (os_path_dirname path);
   existing ← os_path_exists path;
   _ ← (if existing : bool then os_remove path else os_ret ());
   _ ← open_w path;
   k).

(** When the directory can be made and the path is no directory, the file
    is removed if it was there, then created empty. *)
Lemma prepare_ok (st st1 : os_state) :
  os_makedirs (os_path_dirname path) st = (st1, Ok ()) →
  fs st1 !! path ≠ Some Dir →
  prepare st
  = k {| fs := <[path := File []]> (fs st1);
         oplog := oplog st1
                  ++ (if bool_decide (is_Some (fs st1 !! path))
                      then [EvRemove path] else [])
                  ++ [EvOpenW path] |}.
Proof.
  intros Hmk Hnd. rewrite !os_bind_unfold, Hmk.
  unfold os_path_exists. rewrite os_bind_unfold.
  destruct (fs st1 !! path) as [[content|]|] eqn:Hp; [|done|].
  - rewrite bool_decide_eq_true_2 by eauto.
    rewrite os_bind_unfold. unfold os_remove. rewrite Hp, os_bind_unfold.
    unfold open_w. cbn [fs oplog]. rewrite lookup_delete_eq.
    rewrite insert_delete_eq, <- app_assoc. reflexivity.
  - rewrite bool_decide_eq_false_2 by (intros [? ?]; done).
    unfold os_ret. rewrite !os_bind_unfold. unfold open_w. rewrite Hp.
    reflexivity.
Qed.

(** In every case the preparation writes no summary: it either raises, or
    hands an empty file to what follows. *)
Lemma prepare_cases (st : os_state) :
  (∃ st' e, prepare st = (st', Raise e)
            ∧ summaries_written (oplog st') = summaries_written (oplog st))
  ∨ (∃ st', prepare st = k st'
            ∧ summaries_written (oplog st') = summaries_written (oplog st)
            ∧ fs st' !! path = Some (File [])).
Proof.
  destruct (os_makedirs (os_path_dirname path) st) as [st1 [[]|e]] eqn:Hmk.
  - assert (Hlog : summaries_written (oplog st1) = summaries_written (oplog st)).
    { rewrite (proj1 (os_makedirs_ok _ _ _ Hmk)), summaries_written_app.
      cbn. now rewrite app_nil_r. }
    assert (Hcase : fs st1 !! path = Some Dir ∨ fs st1 !! path ≠ Some Dir)
      by (destruct (fs st1 !! path) as [[|]|]; [right|left|right]; done).
    destruct Hcase as [Hd|Hnd].
    + left. exists st1, (IsADirectoryError path). split; [|exact Hlog].
      rewrite !os_bind_unfold, Hmk.
      unfold os_path_exists. rewrite os_bind_unfold. cbv beta. rewrite Hd.
      rewrite bool_decide_eq_true_2 by eauto.
      rewrite os_bind_unfold. unfold os_remove. rewrite Hd. reflexivity.
    + right. eexists. split; [exact (prepare_ok st st1 Hmk Hnd)|].
      cbn [oplog fs].
      split; [|apply lookup_insert_eq].
      rewrite !summaries_written_app, Hlog.
      destruct (bool_decide _); cbn; now rewrite app_nil_r.
  - left. exists st1, e. rewrite os_bind_unfold, Hmk.
    split; [reflexivity|].
    now rewrite (os_makedirs_fail _ _ _ _ Hmk).
Qed.

End Prepare.

Lemma write_summary_unfold (a : args) (outcomes : list Z) (accuracy : Q)
    (tokenizer_path : string) (results_grouped : option (gmap string Q))
    (results_section : option (list (string * Q))) :
  write_summary a outcomes accuracy tokenizer_path results_grouped
    results_section
  = (_ ← os_makedirs (os_path_dirname (output_path a));
     existing ← os_path_exists (output_path a);
     _ ← (if existing : bool then os_remove (output_path a) else os_ret ());
     _ ← open_w (output_path a);
     payload ← os_lift (summary_payload a outcomes accuracy tokenizer_path
                          results_grouped results_section);
     file_write (output_path a) (JsonSummary payload)).
Proof. reflexivity. Qed.

Lemma append_assoc (s1 s2 s3 : string) :
  (s1 +:+ s2) +:+ s3 = s1 +:+ (s2 +:+ s3).
Proof.
  induction s1 as [|c s1 IH]; [reflexivity|].
  change (String c ((s1 +:+ s2) +:+ s3) = String c (s1 +:+ (s2 +:+ s3))).
  now rewrite IH.
Qed.

(** ** The directory of the summary is not the summary *)

Lemma list_ascii_append (s1 s2 : string) :
  list_ascii_of_string (s1 +:+ s2)
  = list_ascii_of_string s1 ++ list_ascii_of_string s2.
Proof.
  induction s1 as [|c s1 IH]; [reflexivity|].
  change (c :: list_ascii_of_string (s1 +:+ s2)
          = c :: (list_ascii_of_string s1 ++ list_ascii_of_string s2)).
  now rewrite IH.
Qed.

Lemma string_of_list_length (l : list ascii) :
  String.length (string_of_list_ascii l) = length l.
Proof. induction l as [|c l IH]; [reflexivity|]. cbn. now rewrite IH. Qed.

Lemma list_of_string_length (s : string) :
  length (list_ascii_of_string s) = String.length s.
Proof. induction s as [|c s IH]; [reflexivity|]. cbn. now rewrite IH. Qed.

Lemma drop_while_length {A} (p : A → bool) (l : list A) :
  (length (drop_while p l) ≤ length l)%nat.
Proof.
  induction l as [|x l IH]; [reflexivity|].
  cbn [drop_while]. destruct (p x); cbn [length]; lia.
Qed.

(** The directory of a path that ends in a character other than the slash
    is shorter than the path. *)
Lemma dirname_shorter (p : string) (c : ascii) :
  Ascii.eqb slash c = false →
  (String.length (os_path_dirname (p +:+ String c ""))
   < String.length (p +:+ String c ""))%nat.
Proof.
  intros Hc. unfold os_path_dirname. cbv zeta.
  rewrite string_of_list_length, List.length_rev, <- list_of_string_length.
  rewrite list_ascii_append, rev_app_distr.
  change (rev (list_ascii_of_string (String c ""))) with [c].
  cbn [app drop_while]. rewrite Hc. cbn [negb].
  rewrite length_app. cbn [list_ascii_of_string length].
  set (rev_head := drop_while _ (rev (list_ascii_of_string p))).
  assert (Hhead : (length rev_head ≤ length (list_ascii_of_string p))%nat)
    by (unfold rev_head; etransitivity; [apply drop_while_length|];
        now rewrite List.length_rev).
  pose proof (drop_while_length (Ascii.eqb slash) rev_head) as Hstrip.
  destruct (drop_while (Ascii.eqb slash) rev_head); cbn [length] in *; lia.
Qed.

(** An ancestor of a path is shorter than the path. *)
Lemma ancestors_from_shorter (rest : string) (seen : list ascii) (p : string) :
  p ∈ ancestors_from seen rest →
  (String.length p < length seen + String.length rest)%nat.
Proof.
  revert seen. induction rest as [|c rest IH]; intros seen.
  - cbn. now rewrite elem_of_nil.
  - cbn [ancestors_from String.length]. rewrite elem_of_app.
    intros [Hp|Hp].
    + destruct (Ascii.eqb slash c); [|now apply elem_of_nil in Hp].
      destruct seen as [|last seen]; [now apply elem_of_nil in Hp|].
      destruct (Ascii.eqb slash last); [now apply elem_of_nil in Hp|].
      apply list_elem_of_singleton in Hp. subst p.
      rewrite string_of_list_length, List.length_rev. lia.
    + specialize (IH _ Hp). cbn [length] in IH. lia.
Qed.

Lemma ancestors_shorter (name p : string) :
  p ∈ ancestors name → (String.length p < String.length name)%nat.
Proof. intros Hp. exact (ancestors_from_shorter name [] p Hp). Qed.

(** Making the directory of the summary leaves what is at the path of the
    summary. *)
Lemma output_path_not_made (a : args) :
  output_path a
  ∉ ancestors (os_path_dirname (output_path a))
    ++ [os_path_dirname (output_path a)].
Proof.
  assert (Hlt : (String.length (os_path_dirname (output_path a))
                 < String.length (output_path a))%nat).
  { unfold output_path.
    replace (output_dir a +:+ model a +:+ ".json")
      with ((output_dir a +:+ model a +:+ ".jso") +:+ String "n" "")
      by (now rewrite !append_assoc).
    now apply dirname_shorter. }
  rewrite elem_of_app, list_elem_of_singleton. intros [Hin|Heq].
  - apply ancestors_shorter in Hin. lia.
  - rewrite <- Heq in Hlt. lia.
Qed.

Lemma makedirs_keeps_output_path (a : args) (st st1 : os_state) :
  os_makedirs (os_path_dirname (output_path a)) st = (st1, Ok ()) →
  fs st1 !! output_path a = fs st !! output_path a.
Proof.
  intros Hmk. destruct (os_makedirs_ok _ _ _ Hmk) as (_ & -> & _).
  apply make_dirs_out, output_path_not_made.
Qed.



Lemma summary_payload_unbound (a : args) (outcomes : list Z) (accuracy : Q)
    (tokenizer_path : string) (results_grouped : option (gmap string Q)) :
  is_core a = false →
  summary_payload a outcomes accuracy tokenizer_path results_grouped None
  = Raise (UnboundLocalError "results_section").
Proof. intros Hcore. unfold summary_payload. now rewrite Hcore. Qed.

Ltac peel H :=
  repeat (cbn in H;
          match type of H with
          | Raise _ = Ok _ => discriminate H
          | context [match ?m with Ok _ => _ | Raise _ => _ end] =>
              destruct m eqn:?
          | context [let (_, _) := ?p in _] => destruct p
          | context [if ?b then _ else _] => destruct b eqn:?
          end).

(** Off the core data set, [results_grouped] and [results_section] are never
    assigned. *)
Lemma compute_non_core {num : Type} `{Scalar num} (w : world num) (a : args)
    (c : computed) :
  is_core a = false → compute w a = Ok c →
  c_results_grouped c = None ∧ c_results_section c = None.
Proof.
  intros Hcore Hc. unfold compute in Hc. rewrite Hcore in Hc.
  unfold mbind, result_bind, Py.bind in Hc.
  peel Hc. all: inversion Hc; split; reflexivity.
Qed.

(** C5 on the code: on a data set other than the core one [main] never ends
    normally and writes no summary; when everything before the write goes
    through, the exception is the read of the unassigned [results_section],
    and the file of the summary is left empty. *)
Theorem non_core_summary_not_written {num : Type} `{Scalar num}
    (w : world num) (a : args) (st : os_state) :
  is_core a = false →
  (∃ e, (main w a st).2 = Raise e)
  ∧ summaries_written (oplog (main w a st).1) = summaries_written (oplog st)
  ∧ (∀ c st1,
       compute w a = Ok c →
       os_makedirs (os_path_dirname (output_path a)) st = (st1, Ok ()) →
       fs st1 !! output_path a ≠ Some Dir →
       (main w a st).2 = Raise (UnboundLocalError "results_section")
       ∧ fs (main w a st).1 !! output_path a = Some (File [])).
Proof.
  intros Hcore. unfold main. rewrite os_bind_unfold. unfold os_lift.
  destruct (compute w a) as [c|e] eqn:Hc.
  2: { cbn [fst snd]. split; [eauto|]. split; [reflexivity|]. intros; congruence. }
  destruct (compute_non_core w a c Hcore Hc) as [_ Hsec].
  unfold save. rewrite os_bind_unfold, write_summary_unfold, Hsec.
  split; [|split].
  - destruct (prepare_cases (output_path a)
                (payload ← os_lift (summary_payload a (results (c_loop c))
                                      (c_accuracy c) (c_tokenizer_path c)
                                      (c_results_grouped c) None);
                 file_write (output_path a) (JsonSummary payload)) st)
      as [(st' & e & -> & _) | (st' & -> & _ & _)]; [eauto|].
    rewrite os_bind_unfold. unfold os_lift.
    rewrite summary_payload_unbound by exact Hcore. eauto.
  - destruct (prepare_cases (output_path a)
                (payload ← os_lift (summary_payload a (results (c_loop c))
                                      (c_accuracy c) (c_tokenizer_path c)
                                      (c_results_grouped c) None);
                 file_write (output_path a) (JsonSummary payload)) st)
      as [(st' & e & -> & Hlog) | (st' & -> & Hlog & _)]; [exact Hlog|].
    rewrite os_bind_unfold. unfold os_lift.
    rewrite summary_payload_unbound by exact Hcore. exact Hlog.
  - intros c' st1 Hc' Hmk Hnd.
    rewrite (prepare_ok _ _ st st1 Hmk Hnd), os_bind_unfold. unfold os_lift.
    rewrite summary_payload_unbound by exact Hcore. cbn [fst snd fs].
    split; [reflexivity | apply lookup_insert_eq].
Qed.

Lemma non_core_summary_not_written_witness :
  (main (sample_world sample_dataset) (sample_args "my/prefs" "results/")
     empty_os).2
  = Raise (UnboundLocalError "results_section")
  ∧ fs (main (sample_world sample_dataset) (sample_args "my/prefs" "results/")
          empty_os).1 !! "results/m.json"
    = Some (File []).
Proof.
  destruct (non_core_summary_not_written (sample_world sample_dataset)
              (sample_args "my/prefs" "results/") empty_os eq_refl)
    as (_ & _ & Hrun).
  destruct (compute (sample_world sample_dataset)
              (sample_args "my/prefs" "results/")) as [c|e] eqn:Hc;
    [|vm_compute in Hc; discriminate].
  eapply (Hrun c); [reflexivity | vm_compute; reflexivity | vm_compute; discriminate].
Defined.

(** The same run, evaluated. *)
Example non_core_run_fails :
  (main (sample_world sample_dataset) (sample_args "my/prefs" "results/")
     empty_os).2
  = Raise (UnboundLocalError "results_section")
  ∧ oplog (main (sample_world sample_dataset)
             (sample_args "my/prefs" "results/") empty_os).1
    = [EvMakedirs "results"; EvOpenW "results/m.json"].
Proof. split; vm_compute; reflexivity. Qed.

(** On the core data set the same run ends normally and the mean is
    written. *)
Example core_run_writes_summary :
  (main (sample_world sample_dataset) (sample_args core_dataset "results/")
     empty_os).2 = Ok ()
  ∧ ∃ s, summaries_written
           (oplog (main (sample_world sample_dataset)
                     (sample_args core_dataset "results/") empty_os).1)
         = [("results/m.json", s)]
         ∧ Summary.section_results s = Some [("Chat", 2 # 4)%Q]
         ∧ Summary.section_results_mean s = (2 # 4)%Q.
Proof.
  split; [vm_compute; reflexivity|].
  eexists. split; [vm_compute; reflexivity|]. split; reflexivity.
Qed.

(** ** [main] and the quantization switch *)

(** In a run that gets as far as the scores, the switch is the one
    [resolve_quantized] computes from the entry of the table, and the
    keyword arguments of the model builder follow it. *)
Lemma compute_quantized {num : Type} `{Scalar num} (w : world num) (a : args)
    (c : computed) :
  compute w a = Ok c →
  ∃ is_dpo tables config,
    select_configs w a = Ok (is_dpo, tables)
    ∧ lookup_config tables a = Ok config
    ∧ c_quantized c = resolve_quantized config a
    ∧ c_model_kwargs c = build_model_kwargs w (c_quantized c).
Proof.
  intros Hc. unfold compute in Hc.
  unfold mbind, result_bind, Py.bind in Hc.
  destruct (select_configs w a) as [[is_dpo tables]|] eqn:Hsel; [|discriminate].
  destruct (match chat_template a with Some _ => _ | None => _ end);
    [|discriminate].
  destruct (lookup_config tables a) as [config|] eqn:Hcfg; [|discriminate].
  exists is_dpo, tables, config.
  split; [first [assumption | reflexivity]|].
  split; [first [assumption | reflexivity]|].
  destruct (check_custom_dialogue config); [|discriminate].
  destruct (load_tokenizer w _ _); [|discriminate].
  destruct (load_dataset w a) as [[dataset subsets]|]; [|discriminate].
  destruct is_dpo; [discriminate|].
  destruct (from_pretrained w _ _ _); [|discriminate].
  destruct (DataLoader _ _); [|discriminate].
  destruct (compute_accuracy _); [|discriminate].
  destruct (if is_core a then _ else _) as [[g s]|]; [|discriminate].
  inversion Hc. split; reflexivity.
Qed.

(** In a run that gets as far as the scores, the model builder was given
    the keyword arguments that follow the switch, and returned the
    classifier the loop ran. *)
Lemma compute_loads_model {num : Type} `{Scalar num} (w : world num)
    (a : args) (c : computed) :
  compute w a = Ok c →
  ∃ tables config base,
    select_configs w a = Ok (false, tables)
    ∧ lookup_config tables a = Ok config
    ∧ from_pretrained w (model a)
        (build_model_kwargs w (resolve_quantized config a))
        (trust_remote_code a) = Ok base
    ∧ c_quantized c = resolve_quantized config a
    ∧ c_model_kwargs c = build_model_kwargs w (resolve_quantized config a).
Proof.
  intros Hc. unfold compute in Hc.
  unfold mbind, result_bind, Py.bind in Hc.
  destruct (select_configs w a) as [[is_dpo tables]|] eqn:Hsel; [|discriminate].
  destruct (match chat_template a with Some _ => _ | None => _ end);
    [|discriminate].
  destruct (lookup_config tables a) as [config|] eqn:Hcfg; [|discriminate].
  destruct (check_custom_dialogue config); [|discriminate].
  destruct (load_tokenizer w _ _); [|discriminate].
  destruct (load_dataset w a) as [[dataset subsets]|]; [|discriminate].
  destruct is_dpo; [discriminate|].
  destruct (from_pretrained w _ _ _) as [base|] eqn:Hbase; [|discriminate].
  destruct (DataLoader _ _); [|discriminate].
  destruct (compute_accuracy _); [|discriminate].
  destruct (if is_core a then _ else _) as [[g s]|]; [|discriminate].
  inversion Hc. exists tables, config, base. cbn. auto.
Qed.


(** With a configuration that asks for quantization and a model builder that
    cannot load in 8 bits, a run fails at the model builder, and the run of
    a model with a Llama 3 tag in its name does not: the builder is given
    other keyword arguments. *)
Example quantized_config_decides :
  compute (no_8bit_world sample_dataset) (sample_args core_dataset "results/")
  = Raise (ValueError "8-bit loading is not available")
  ∧ (∃ c, compute (no_8bit_world sample_dataset) llama3_args = Ok c
          ∧ c_quantized c = false ∧ c_model_kwargs c = kwargs_plain).
Proof.
  split; [vm_compute; reflexivity|].
  eexists. split; [vm_compute; reflexivity|]. split; reflexivity.
Qed.

(** ** [main] and the lengths of the two lists *)

(** In a run that gets as far as the scores, with a model builder whose
    classifiers give one row of logits per input, the outcomes and the
    margins are as many as the examples of the data set. *)
Lemma compute_lengths {num : Type} `{Scalar num} (w : world num) (a : args)
    (c : computed) :
  (∀ m kw t base, from_pretrained w m kw t = Ok base → logits_shape base) →
  compute w a = Ok c →
  length (results (c_loop c)) = length (c_dataset c)
  ∧ length (scores_margin (c_loop c)) = length (c_dataset c).
Proof.
  intros Hshape Hc. unfold compute in Hc.
  unfold mbind, result_bind, Py.bind in Hc.
  destruct (select_configs w a) as [[is_dpo tables]|]; [|discriminate].
  destruct (match chat_template a with Some _ => _ | None => _ end);
    [|discriminate].
  destruct (lookup_config tables a) as [config|]; [|discriminate].
  destruct (check_custom_dialogue config); [|discriminate].
  destruct (load_tokenizer w _ _); [|discriminate].
  destruct (load_dataset w a) as [[dataset subsets]|]; [|discriminate].
  destruct is_dpo; [discriminate|].
  destruct (from_pretrained w _ _ _) as [base|] eqn:Hbase; [|discriminate].
  destruct (DataLoader _ _) as [dl|] eqn:Hdl; [|discriminate].
  destruct (compute_accuracy _); [|discriminate].
  destruct (if is_core a then _ else _) as [[g s]|]; [|discriminate].
  inversion Hc. cbn [c_loop c_dataset].
  unfold DataLoader in Hdl.
  destruct (Z.leb_spec (batch_size a) 0); [discriminate|].
  inversion Hdl. unfold run_inference.
  assert (Hsh : logits_shape (super_forward (init base 1)))
    by exact (Hshape _ _ _ _ Hbase).
  destruct (run_lengths (init base 1) Hsh
              (batches (Z.to_nat (batch_size a)) dataset)) as [Hr Hm].
  rewrite Hr, Hm, batches_concat by lia. auto.
Qed.

End RunnerProps.

(** * Properties of the sweep submitter *)
Module SubmitterProps.
Import Py Submitter.

Lemma sub_bind_unfold {A B} (m : sub_m A) (k : A → sub_m B) st :
  (m ≫= k) st = match m st with
                | (st', Ok a) => k a st'
                | (st', Raise e) => (st', Raise e)
                end.
Proof. reflexivity. Qed.

(** C8: with both filters set the script stops at its first assertion; the
    state is untouched, so no file has been opened by then. *)
Theorem both_filters_fail_before_reading (a : args) (w : world) (st : state) :
  eval_dpo_only a = true → eval_rm_only a = true →
  submit a w st
  = (st, Raise (AssertionError
                  "Only one of eval_dpo_only and eval_rm_only can be True"))
  ∧ filter is_read (trace (submit a w (initial false)).1) = [].
Proof.
  intros Hd Hr.
  assert (Hstop : ∀ s, submit a w s
            = (s, Raise (AssertionError
                 "Only one of eval_dpo_only and eval_rm_only can be True"))).
  { intros s. unfold submit. rewrite sub_bind_unfold.
    unfold py_assert, lift. rewrite Hd, Hr. reflexivity. }
  split; [apply Hstop|]. rewrite Hstop. reflexivity.
Qed.

Lemma both_filters_fail_before_reading_witness :
  let a := {| eval_on_pref_sets := false; eval_on_bon := false;
              image := "img"; cluster := "c"; upload_to_hub := true;
              model := None; ref_free := false;
              eval_dpo_only := true; eval_rm_only := true |} in
  (submit a (sample_world (Some "tok")) (initial false)).2
  = Raise (AssertionError
             "Only one of eval_dpo_only and eval_rm_only can be True").
Proof.
  intros a.
  rewrite (proj1 (both_filters_fail_before_reading a (sample_world (Some "tok"))
                    (initial false) eq_refl eq_refl)).
  reflexivity.
Defined.

(** C9: without [HF_TOKEN] in the environment the script ends in an
    exception, and by then it has written no job document, started no
    command and made no directory. *)
Theorem missing_token_fails_before_writing (a : args) (w : world) (b : bool) :
  HF_TOKEN w = None →
  (∃ e, (submit a w (initial b)).2 = Raise e)
  ∧ written_docs (trace (submit a w (initial b)).1) = []
  ∧ popen_cmds (trace (submit a w (initial b)).1) = []
  ∧ auto_created_exists (submit a w (initial b)).1 = b.
Proof.
  intros Htok. unfold submit, read_yaml, py_assert, lift, emit, initial.
  rewrite Htok.
  destruct (eval_dpo_only a), (eval_rm_only a), (eval_on_bon a),
    (eval_on_pref_sets a), (beaker_eval_yaml w) as [d1|],
    (eval_bon_configs_yaml w) as [cb|], (eval_configs_yaml w) as [cs|];
    cbn; eauto.
Qed.

(** When nothing else is wrong, the exception is the assertion on the token,
    raised after the two configuration files have been read. *)
Lemma missing_token_assertion (a : args) (w : world) (b : bool) d1 configs :
  HF_TOKEN w = None →
  eval_dpo_only a && eval_rm_only a = false →
  eval_on_pref_sets a && eval_on_bon a = false →
  beaker_eval_yaml w = Some d1 →
  (if eval_on_bon a then eval_bon_configs_yaml w else eval_configs_yaml w)
  = Some configs →
  (submit a w (initial b)).2
  = Raise (AssertionError
      "HF Token does not exist -- run `Export HF_TOKEN=<your_write_token_here>'")
  ∧ length (filter is_read (trace (submit a w (initial b)).1)) = 2%nat.
Proof.
  intros Htok Hf Hm Hd1 Hc.
  unfold submit, read_yaml, py_assert, lift, emit, initial.
  rewrite Htok, Hf, Hm, Hd1.
  destruct (eval_on_bon a); rewrite Hc; cbn; auto.
Qed.

Lemma missing_token_fails_before_writing_witness :
  (∃ e, (submit plain_args (sample_world None) (initial false)).2 = Raise e)
  ∧ written_docs
      (trace (submit plain_args (sample_world None) (initial false)).1) = []
  ∧ popen_cmds
      (trace (submit plain_args (sample_world None) (initial false)).1) = []
  ∧ auto_created_exists
      (submit plain_args (sample_world None) (initial false)).1 = false.
Proof.
  exact (missing_token_fails_before_writing plain_args (sample_world None)
           false eq_refl).
Defined.

Lemma modelA_lookups :
  modelA_config !! "dpo" = Some (YBool false)
  ∧ modelA_config !! "tokenizer" = Some (YStr "t1")
  ∧ modelA_config !! "batch_size" = Some (YInt 4)
  ∧ modelA_config !! "chat_template" = Some YNull
  ∧ modelA_config !! "trust_remote_code" = Some (YBool false)
  ∧ modelA_config !! "num_gpus" = None
  ∧ modelA_config !! "ref_model" = None.
Proof. repeat split; vm_compute; reflexivity. Qed.



End SubmitterProps.

(** * Further properties of the inference runner *)
Module RunnerMore.
Import Py Runner RunnerSpec RunnerProps.

(** ** The two halves of the logits *)

Lemma halves_rejoin {A} (k : nat) (rows : list (list A)) :
  zip_with app (map (take k) rows) (map (drop k) rows) = rows.
Proof.
  induction rows as [|row rows IH]; [reflexivity|].
  cbn [map zip_with]. now rewrite IH, take_drop.
Qed.

(** X1: [forward] cuts every row of the logits of the base class in two:
    the two outputs put side by side are those logits again, whatever
    [return_dict] is; and for a model made by [__init__] over a base class
    that gives [num_labels] logits per input, both halves have
    [num_pref_rank] columns and one row per input. *)
Theorem forward_halves {num : Type} (self : LlamaForPreferencePrediction num)
    (input_ids : list string) (return_dict : bool) :
  let u := (output_uv (forward self input_ids return_dict)).1 in
  let v := (output_uv (forward self input_ids return_dict)).2 in
  zip_with app u v
  = super_forward self (config_num_labels self) input_ids
  ∧ output_uv (forward self input_ids return_dict)
    = output_uv (forward self input_ids true)
  ∧ (∀ base k, self = init base k → logits_shape base →
       length u = length input_ids ∧ length v = length input_ids
       ∧ Forall (λ row, length row = k) u
       ∧ Forall (λ row, length row = k) v).
Proof.
  intros u v. subst u v. unfold forward.
  destruct return_dict; cbn [negb output_uv fst snd].
  all: split; [apply halves_rejoin|]; split; [reflexivity|].
  all: intros base k -> Hshape;
    cbn [init num_pref_rank config_num_labels super_forward];
    destruct (Hshape (2 * k)%nat input_ids) as [Hlen Hrows];
    rewrite !length_map, Hlen; repeat split.
  all: change (map ?f ?l) with (f <$> l); apply Forall_fmap;
    eapply Forall_impl; [exact Hrows|]; intros row Hrow; cbn in Hrow |- *;
    rewrite ?length_take, ?length_drop; lia.
Qed.

(** ** What a successful [compute] went through *)

Lemma tokenizer_path_effective (a : args) :
  match tokenizer a with
  | Some t => if truthy_str (tokenizer a) then t else model a
  | None => model a
  end = effective_tokenizer a.
Proof.
  unfold effective_tokenizer, truthy_str.
  destruct (tokenizer a) as [t|]; [|reflexivity].
  now destruct (String.eqb t "").
Qed.

Lemma compute_inv {num : Type} `{Scalar num} (w : world num) (a : args)
    (c : computed) :
  compute w a = Ok c →
  ∃ tables config subsets base dl,
    select_configs w a = Ok (false, tables)
    ∧ lookup_config tables a = Ok config
    ∧ custom_dialogue config = false
    ∧ load_dataset w a = Ok (c_dataset c, subsets)
    ∧ from_pretrained w (model a)
        (build_model_kwargs w (resolve_quantized config a))
        (trust_remote_code a) = Ok base
    ∧ DataLoader (c_dataset c) (batch_size a) = Ok dl
    ∧ c_loop c = run_inference (init base 1) dl
    ∧ compute_accuracy (results (c_loop c)) = Ok (c_accuracy c)
    ∧ c_tokenizer_path c = effective_tokenizer a
    ∧ (if is_core a
       then ∃ g s, group_core w a (c_dataset c) (results (c_loop c)) subsets
                   = Ok (g, s)
                   ∧ c_results_grouped c = Some g
                   ∧ c_results_section c = Some s
       else c_results_grouped c = None ∧ c_results_section c = None).
Proof.
  intros Hc. unfold compute in Hc. rewrite tokenizer_path_effective in Hc.
  unfold mbind, result_bind, Py.bind in Hc.
  destruct (select_configs w a) as [[is_dpo tables]|] eqn:Hsel; [|discriminate].
  destruct (match chat_template a with Some _ => _ | None => _ end);
    [|discriminate].
  destruct (lookup_config tables a) as [config|] eqn:Hcfg; [|discriminate].
  destruct (check_custom_dialogue config) eqn:Hcd; [|discriminate].
  destruct (load_tokenizer w _ _); [|discriminate].
  destruct (load_dataset w a) as [[dataset subsets]|] eqn:Hds; [|discriminate].
  destruct is_dpo; [discriminate|].
  destruct (from_pretrained w _ _ _) as [base|] eqn:Hbase; [|discriminate].
  destruct (DataLoader _ _) as [dl|] eqn:Hdl; [|discriminate].
  destruct (compute_accuracy _) as [acc|] eqn:Hacc; [|discriminate].
  exists tables, config, subsets, base, dl.
  assert (Hcustom : custom_dialogue config = false).
  { unfold check_custom_dialogue in Hcd.
    destruct (custom_dialogue config); [discriminate | reflexivity]. }
  destruct (is_core a).
  - destruct (group_core w a dataset _ subsets) as [[g s]|] eqn:Hg;
      [|discriminate].
    inversion Hc; subst c; cbn.
    repeat (split; [first [assumption | reflexivity]|]). eauto.
  - inversion Hc; subst c; cbn.
    repeat (split; [first [assumption | reflexivity]|]). auto.
Qed.

Lemma main_compute_fails {num : Type} `{Scalar num} (w : world num)
    (a : args) (st : os_state) (e : exn) :
  compute w a = Raise e → main w a st = (st, Raise e).
Proof.
  intros Hc. unfold main. rewrite os_bind_unfold. unfold os_lift.
  now rewrite Hc.
Qed.

(** ** Modes that are not implemented *)

(** X2: with a reference model (a non-empty [--ref_model]) no run ends
    normally and no file is touched: the run stops with the assertion when
    the reference model is the model itself, and otherwise at the latest
    where the DPO pipeline would be loaded. *)
Theorem reference_model_never_runs {num : Type} `{Scalar num}
    (w : world num) (a : args) (st : os_state) :
  truthy_str (ref_model a) = true →
  (∃ e, main w a st = (st, Raise e))
  ∧ (ref_model a = Some (model a) →
     main w a st
     = (st, Raise (AssertionError
                     "policy and reference model should be different"))).
Proof.
  intros Href. split.
  - destruct (compute w a) as [c|e] eqn:Hc;
      [|exists e; now apply main_compute_fails].
    destruct (compute_inv w a c Hc) as (tables & ? & ? & ? & ? & Hsel & _).
    unfold select_configs in Hsel. rewrite Href in Hsel.
    destruct (negb _); discriminate.
  - intros Heq. apply main_compute_fails. unfold compute, select_configs.
    rewrite Href, Heq, bool_decide_eq_true_2 by reflexivity. reflexivity.
Qed.

Lemma reference_model_never_runs_witness :
  ∃ e, main (sample_world sample_dataset)
         (args_of core_dataset "results/" "m" false (Some "ref") false)
         old_os
       = (old_os, Raise e).
Proof.
  exact (proj1 (reference_model_never_runs (sample_world sample_dataset)
                  (args_of core_dataset "results/" "m" false (Some "ref")
                     false)
                  old_os eq_refl)).
Defined.

(** X3: a model whose configuration asks for custom dialogue formatting is
    refused with [NotImplementedError] before the tokenizer, the data set
    or the model is loaded (whatever these would do), and no file is
    touched. *)
Theorem custom_dialogue_refused {num : Type} `{Scalar num}
    (w : world num) (a : args) (st : os_state)
    (tables : gmap string model_config) (config : model_config)
    (is_dpo : bool) :
  chat_template a = None →
  select_configs w a = Ok (is_dpo, tables) →
  lookup_config tables a = Ok config →
  custom_dialogue config = true →
  main w a st
  = (st, Raise (NotImplementedError
                  "Custom dialogue not implemented yet for simpler data formatting.")).
Proof.
  intros Hct Hsel Hcfg Hcd. apply main_compute_fails.
  unfold compute. rewrite Hsel, Hct.
  unfold mbind, result_bind, Py.bind. rewrite Hcfg.
  unfold check_custom_dialogue. now rewrite Hcd.
Qed.

Lemma custom_dialogue_refused_witness :
  main (world_with custom_config sample_dataset (λ _, Ok []))
    (args_of core_dataset "results/" "m" false None false) old_os
  = (old_os, Raise (NotImplementedError
       "Custom dialogue not implemented yet for simpler data formatting.")).
Proof.
  apply (custom_dialogue_refused
           (world_with custom_config sample_dataset (λ _, Ok []))
           (args_of core_dataset "results/" "m" false None false) old_os
           {["default" := custom_config]} custom_config false).
  - reflexivity.
  - reflexivity.
  - vm_compute. reflexivity.
  - reflexivity.
Defined.

(** ** Debug mode *)

Lemma load_dataset_debug {num : Type} (w : world num) (a : args)
    (dataset : list example) (subsets : option (list string)) :
  debug a = true → load_dataset w a = Ok (dataset, subsets) →
  length dataset = 10%nat.
Proof.
  intros Hdbg. unfold load_dataset, mbind, result_bind, Py.bind.
  rewrite Hdbg.
  destruct (if is_core a then _ else _) as [[ds subs]|]; [|discriminate].
  unfold select_range10.
  destruct (Nat.ltb_spec (length ds) 10); [discriminate|].
  intros Heq. inversion Heq. rewrite length_take. lia.
Qed.

(** X4: a run in debug mode that gets to the scores evaluates ten examples:
    the data set it works on has ten rows and, with a model that gives one
    row of logits per input, so have the outcomes and the margins. *)
Theorem debug_run_has_ten {num : Type} `{Scalar num} (w : world num)
    (a : args) (c : computed) :
  debug a = true →
  (∀ m kw t base, from_pretrained w m kw t = Ok base → logits_shape base) →
  compute w a = Ok c →
  length (c_dataset c) = 10%nat
  ∧ length (results (c_loop c)) = 10%nat
  ∧ length (scores_margin (c_loop c)) = 10%nat.
Proof.
  intros Hdbg Hshape Hc.
  destruct (compute_lengths w a c Hshape Hc) as [Hr Hm].
  destruct (compute_inv w a c Hc) as (? & ? & subsets & ? & ? & _ & _ & _ & Hds & _).
  pose proof (load_dataset_debug w a _ _ Hdbg Hds) as Hten.
  rewrite Hr, Hm. auto.
Qed.

Lemma debug_run_has_ten_witness :
  ∃ c, compute (sample_world twelve_pairs)
         (args_of core_dataset "results/" "m" true None false) = Ok c
       ∧ length (results (c_loop c)) = 10%nat.
Proof.
  destruct (compute (sample_world twelve_pairs)
              (args_of core_dataset "results/" "m" true None false))
    as [c|e] eqn:Hc; [|vm_compute in Hc; discriminate].
  exists c. split; [reflexivity|].
  refine (proj1 (proj2 (debug_run_has_ten (sample_world twelve_pairs)
            (args_of core_dataset "results/" "m" true None false) c
            eq_refl _ Hc))).
  intros m kw t base Hb. cbn in Hb. inversion Hb.
  apply length_classifier_shape.
Defined.

(** A data set of fewer than ten examples cannot be run in debug mode. *)
Example debug_short_dataset :
  compute (sample_world sample_dataset)
    (args_of core_dataset "results/" "m" true None false)
  = Raise (IndexError "select: index out of range").
Proof. vm_compute. reflexivity. Qed.

(** ** Accuracy per subset *)

Lemma true_div_nonempty (column : list Z) :
  column ≠ [] →
  true_div (py_sum column) (Z.of_nat (length column))
  = Ok (column_accuracy column).
Proof.
  intros Hne. unfold true_div, column_accuracy.
  destruct column as [|o column]; [done|]. cbn [length].
  destruct (Z.eqb_spec (Z.of_nat (S (length column))) 0); [lia | reflexivity].
Qed.

(** The loop over the subsets, for subsets that all have a row. *)
Lemma group_loop_spec {A} (rows : list ((A * Z) * string))
    (present : list string) (acc : gmap string Q) :
  (∀ s, s ∈ present → subset_results rows s ≠ []) →
  ∃ g, group_loop rows present acc = Ok g
       ∧ (∀ s, s ∈ present →
               g !! s = Some (column_accuracy (subset_results rows s)))
       ∧ (∀ s, s ∉ present → g !! s = acc !! s).
Proof.
  revert acc. induction present as [|s0 present IH]; intros acc Hrows.
  - exists acc. split; [reflexivity|]. split; [|reflexivity].
    intros s Hs. now apply elem_of_nil in Hs.
  - cbn [group_loop]. unfold mbind, result_bind, Py.bind.
    rewrite true_div_nonempty by (apply Hrows; left).
    destruct (IH (<[s0 := column_accuracy (subset_results rows s0)]> acc))
      as (g & Hg & Hin & Hout).
    { intros s Hs. apply Hrows. now right. }
    exists g. split; [exact Hg|]. split.
    + intros s Hs. destruct (decide (s ∈ present)) as [Hp|Hp];
        [now apply Hin|].
      apply elem_of_cons in Hs. destruct Hs as [->|Hs]; [|done].
      rewrite (Hout s0 Hp). apply lookup_insert_eq.
    + intros s Hs. apply not_elem_of_cons in Hs. destruct Hs as [Hne Hp].
      rewrite (Hout s Hp). now apply lookup_insert_ne.
Qed.

Lemma subset_results_labelled {A} (dataset : list A) (outcomes : list Z)
    (subsets : list string) (s : string) :
  length dataset = length outcomes → length dataset = length subsets →
  s ∈ subsets → subset_results (labelled_rows dataset outcomes subsets) s ≠ [].
Proof.
  unfold labelled_rows, subset_results.
  revert outcomes subsets.
  induction dataset as [|x dataset IH]; intros [|o outcomes] [|s' subsets];
    cbn [length]; try discriminate; intros Ho Hs Hin.
  - now apply elem_of_nil in Hin.
  - cbn [zip zip_with]. rewrite filter_cons. cbn [snd].
    destruct (decide (s' = s)) as [->|Hne]; [discriminate|].
    apply elem_of_cons in Hin. destruct Hin as [->|Hin]; [done|].
    apply IH; [lia | lia | exact Hin].
Qed.

Lemma subset_results_sub {A} (rows : list ((A * Z) * string)) (s : string)
    (P : Z → Prop) :
  Forall (λ row, P row.1.2) rows → Forall P (subset_results rows s).
Proof.
  unfold subset_results. induction 1 as [|row rows Hrow _ IH]; [constructor|].
  rewrite filter_cons. case_decide; [cbn [map]; constructor|]; assumption.
Qed.

Lemma labelled_rows_outcomes {A} (dataset : list A) (outcomes : list Z)
    (subsets : list string) (P : Z → Prop) :
  Forall P outcomes →
  Forall (λ row, P row.1.2) (labelled_rows dataset outcomes subsets).
Proof.
  unfold labelled_rows. intros Hall. revert dataset subsets.
  induction Hall as [|o outcomes Ho _ IH]; intros [|x dataset] [|s subsets];
    cbn; try constructor; auto.
Qed.

(** X5: the grouping by subset never divides by zero: for a data set, its
    outcomes and its subset labels, all of the same length, the loop gives
    exactly one entry per label that occurs, the quotient of the sum and the
    number of the outcomes with that label, and for outcomes that are 0 or
    1 every entry lies between 0 and 1. *)
Theorem per_subset_accuracy (dataset : list example) (outcomes : list Z)
    (subsets : list string) :
  length dataset = length outcomes → length dataset = length subsets →
  let rows := labelled_rows dataset outcomes subsets in
  ∃ g, group_loop rows (remove_dups subsets) ∅ = Ok g
       ∧ (∀ s, s ∈ subsets →
               g !! s = Some (column_accuracy (subset_results rows s)))
       ∧ (∀ s, s ∉ subsets → g !! s = None)
       ∧ (Forall (λ o, o = 0 ∨ o = 1) outcomes →
          ∀ s q, g !! s = Some q → (0 <= q)%Q ∧ (q <= 1)%Q)
       ∧ (∀ num (w : world num) (a : args),
            debug a = false →
            group_core w a dataset outcomes (Some subsets)
            = (section ← calculate_scores_per_section w g;
               Ok (g, section))).
Proof.
  intros Ho Hs rows. subst rows.
  set (rows := labelled_rows dataset outcomes subsets).
  destruct (group_loop_spec rows (remove_dups subsets) ∅)
    as (g & Hg & Hin & Hout).
  { intros s Hin. rewrite elem_of_remove_dups in Hin.
    exact (subset_results_labelled dataset outcomes subsets s Ho Hs Hin). }
  exists g. split; [exact Hg|].
  assert (Hin' : ∀ s, s ∈ subsets →
            g !! s = Some (column_accuracy (subset_results rows s))).
  { intros s Hsin. apply Hin. now rewrite elem_of_remove_dups. }
  assert (Hout' : ∀ s, s ∉ subsets → g !! s = None).
  { intros s Hsout. rewrite Hout; [apply lookup_empty|].
    now rewrite elem_of_remove_dups. }
  split; [exact Hin'|]. split; [exact Hout'|]. split.
  2: { intros num w a Hdbg. unfold group_core, add_column, read_local.
       rewrite Hdbg.
       rewrite (proj2 (Nat.eqb_eq _ _) Ho).
       unfold mbind at 1 2 3, result_bind, Py.bind.
       rewrite length_zip, <- Ho, Nat.min_id.
       rewrite (proj2 (Nat.eqb_eq _ _) Hs).
       fold (labelled_rows dataset outcomes subsets). fold rows.
       unfold mbind at 1, result_bind, Py.bind. now rewrite Hg. }
  intros Hbin s q Hq.
  destruct (decide (s ∈ subsets)) as [Hsin|Hsout];
    [|rewrite (Hout' s Hsout) in Hq; discriminate].
  rewrite (Hin' s Hsin) in Hq. inversion Hq. unfold column_accuracy.
  assert (Hcol : Forall (λ o, o = 0 ∨ o = 1) (subset_results rows s)).
  { apply (subset_results_sub rows s (λ o, o = 0 ∨ o = 1)).
    exact (labelled_rows_outcomes dataset outcomes subsets _ Hbin). }
  rewrite (py_sum_count _ Hcol).
  apply accuracy_bounds; [apply count_ones_le|].
  pose proof (subset_results_labelled dataset outcomes subsets s Ho Hs Hsin)
    as Hne.
  fold rows in Hne. destruct (subset_results rows s); [done | cbn; lia].
Qed.

Lemma per_subset_accuracy_witness :
  ∃ g, group_loop
         (labelled_rows sample_dataset [1; 0; 0; 1] ["a"; "b"; "a"; "b"])
         (remove_dups ["a"; "b"; "a"; "b"]) ∅ = Ok g
       ∧ g !! "a" = Some (column_accuracy [1; 0])
       ∧ g !! "c" = None.
Proof.
  destruct (per_subset_accuracy sample_dataset [1; 0; 0; 1]
              ["a"; "b"; "a"; "b"] eq_refl eq_refl)
    as (g & Hg & Hin & Hout & _ & _).
  exists g. split; [exact Hg|]. split.
  - rewrite (Hin "a"); [reflexivity|]. left.
  - apply Hout. intros Hin'.
    repeat (apply elem_of_cons in Hin'; destruct Hin' as [Hin'|Hin'];
            [discriminate|]).
    now apply elem_of_nil in Hin'.
Defined.

(** ** The summary of a core run *)

Lemma summary_payload_core (a : args) (outcomes : list Z) (accuracy : Q)
    (tokenizer_path : string) (g : gmap string Q) (s : list (string * Q)) :
  is_core a = true →
  summary_payload a outcomes accuracy tokenizer_path (Some g) (Some s)
  = (mean ← mean_values s;
     Ok {| Summary.accuracy := accuracy;
           Summary.num_prompts := Z.of_nat (length outcomes);
           Summary.model := model a;
           Summary.ref_model := ref_model a;
           Summary.tokenizer := tokenizer_path;
           Summary.chat_template := chat_template a;
           Summary.extra_results := Some g;
           Summary.section_results := Some s;
           Summary.section_results_mean := mean |}).
Proof. intros Hcore. unfold summary_payload. now rewrite Hcore. Qed.

Lemma main_unfold {num : Type} `{Scalar num} (w : world num) (a : args)
    (c : computed) (st st1 : os_state) :
  compute w a = Ok c →
  os_makedirs (os_path_dirname (output_path a)) st = (st1, Ok ()) →
  fs st1 !! output_path a ≠ Some Dir →
  main w a st
  = ((payload ← os_lift (summary_payload a (results (c_loop c)) (c_accuracy c)
                           (c_tokenizer_path c) (c_results_grouped c)
                           (c_results_section c));
      file_write (output_path a) (JsonSummary payload))
     ≫= (λ _, if save_all a then write_all a (scores_margin (c_loop c))
              else os_ret ()))
      {| fs := <[output_path a := File []]> (fs st1);
         oplog := oplog st1
                  ++ (if bool_decide (is_Some (fs st1 !! output_path a))
                      then [EvRemove (output_path a)] else [])
                  ++ [EvOpenW (output_path a)] |}.
Proof.
  intros Hc Hmk Hnd. unfold main. rewrite os_bind_unfold. unfold os_lift.
  rewrite Hc. unfold save. rewrite os_bind_unfold, write_summary_unfold.
  rewrite (prepare_ok _ _ st st1 Hmk Hnd). now rewrite (os_bind_unfold _ _ _).
Qed.

(** X6: a run on the core data set that gets to the scores, with section
    scores that are not empty and without [--save_all], ends normally and
    leaves at the output path a file that holds one summary: the accuracy,
    the number of examples of the data set, the model, the tokenizer that
    was used, the per-subset and the section scores, and the mean of the
    section scores. *)
Theorem core_summary_written {num : Type} `{Scalar num} (w : world num)
    (a : args) (c : computed) (st st1 : os_state) :
  is_core a = true → save_all a = false →
  (∀ m kw t base, from_pretrained w m kw t = Ok base → logits_shape base) →
  compute w a = Ok c →
  os_makedirs (os_path_dirname (output_path a)) st = (st1, Ok ()) →
  fs st1 !! output_path a ≠ Some Dir →
  ∃ g s,
    c_results_grouped c = Some g ∧ c_results_section c = Some s
    ∧ (s ≠ [] →
       (main w a st).2 = Ok ()
       ∧ fs (main w a st).1 !! output_path a
         = Some (File [JsonSummary (summary_of a c g s)])
       ∧ summaries_written (oplog (main w a st).1)
         = summaries_written (oplog st1)
           ++ [(output_path a, summary_of a c g s)]).
Proof.
  intros Hcore Hsave Hshape Hc Hmk Hnd.
  destruct (compute_lengths w a c Hshape Hc) as [Hlen _].
  destruct (compute_inv w a c Hc)
    as (? & ? & ? & ? & ? & _ & _ & _ & _ & _ & _ & _ & _ & Htok & Hgrp).
  rewrite Hcore in Hgrp. destruct Hgrp as (g & s & _ & Hg & Hs).
  exists g, s. split; [exact Hg|]. split; [exact Hs|]. intros Hne.
  rewrite (main_unfold w a c st st1 Hc Hmk Hnd), Hsave, Hg, Hs, Htok.
  rewrite os_bind_unfold, os_bind_unfold. unfold os_lift.
  rewrite (summary_payload_core _ _ _ _ _ _ Hcore), Hlen.
  unfold mean_values. destruct s as [|entry s]; [done|]. cbn [length Nat.eqb].
  unfold file_write. cbn [fs oplog]. rewrite lookup_insert_eq.
  unfold mbind, result_bind, Py.bind.
  cbn [os_ret fst snd fs oplog app]. rewrite insert_insert_eq, lookup_insert_eq.
  split; [reflexivity|]. split; [reflexivity|].
  rewrite !summaries_written_app. cbn.
  destruct (bool_decide _); cbn; now rewrite ?app_nil_r.
Qed.

Lemma core_summary_written_witness :
  (main (sample_world sample_dataset)
     (args_of core_dataset "results/" "m" false None false) old_os).2 = Ok ()
  ∧ ∃ s, fs (main (sample_world sample_dataset)
               (args_of core_dataset "results/" "m" false None false)
               old_os).1 !! "results/m.json"
         = Some (File [JsonSummary s])
         ∧ Summary.num_prompts s = 4.
Proof.
  destruct (compute (sample_world sample_dataset)
              (args_of core_dataset "results/" "m" false None false))
    as [c|e] eqn:Hc; [|vm_compute in Hc; discriminate].
  destruct (core_summary_written (sample_world sample_dataset)
              (args_of core_dataset "results/" "m" false None false) c
              old_os (os_makedirs "results" old_os).1)
    as (g & s & Hg & Hs & Hrun); try reflexivity.
  - intros m kw t base Hb. inversion Hb. apply length_classifier_shape.
  - exact Hc.
  - vm_compute. discriminate.
  - assert (Hne : s ≠ []).
    { vm_compute in Hc. inversion Hc; subst c. cbn in Hs. inversion Hs.
      discriminate. }
    destruct (Hrun Hne) as (Hok & Hfile & _).
    split; [exact Hok|]. eexists. split; [exact Hfile|].
    vm_compute in Hc. inversion Hc. reflexivity.
Defined.

(** X7: when the section scores of a core run are empty, the mean divides by
    zero after the output file has been opened: the run ends in
    [ZeroDivisionError], a summary that was there before is gone, and the
    file is left empty. *)
Theorem empty_sections_leave_empty_file {num : Type} `{Scalar num}
    (w : world num) (a : args) (c : computed) (st st1 : os_state) :
  is_core a = true →
  compute w a = Ok c → c_results_section c = Some [] →
  os_makedirs (os_path_dirname (output_path a)) st = (st1, Ok ()) →
  fs st1 !! output_path a ≠ Some Dir →
  (main w a st).2 = Raise ZeroDivisionError
  ∧ fs (main w a st).1 !! output_path a = Some (File [])
  ∧ summaries_written (oplog (main w a st).1)
    = summaries_written (oplog st1).
Proof.
  intros Hcore Hc Hs Hmk Hnd.
  destruct (compute_inv w a c Hc)
    as (? & ? & ? & ? & ? & _ & _ & _ & _ & _ & _ & _ & _ & _ & Hgrp).
  rewrite Hcore in Hgrp. destruct Hgrp as (g & s & _ & Hg & _).
  rewrite (main_unfold w a c st st1 Hc Hmk Hnd), Hg, Hs.
  rewrite os_bind_unfold, os_bind_unfold. unfold os_lift.
  rewrite (summary_payload_core _ _ _ _ _ _ Hcore).
  cbn [mean_values length Nat.eqb mbind result_bind Py.bind fst snd fs oplog].
  unfold mbind, result_bind, Py.bind. cbn [fst snd fs oplog].
  split; [reflexivity|]. split; [apply lookup_insert_eq|].
  rewrite !summaries_written_app. cbn.
  destruct (bool_decide _); cbn; now rewrite ?app_nil_r.
Qed.

Lemma empty_sections_leave_empty_file_witness :
  (main (world_with sample_config sample_dataset (λ _, Ok []))
     (args_of core_dataset "results/" "m" false None false) old_os).2
  = Raise ZeroDivisionError
  ∧ fs (main (world_with sample_config sample_dataset (λ _, Ok []))
          (args_of core_dataset "results/" "m" false None false) old_os).1
      !! "results/m.json"
    = Some (File []).
Proof.
  destruct (compute (world_with sample_config sample_dataset (λ _, Ok []))
              (args_of core_dataset "results/" "m" false None false))
    as [c|e] eqn:Hc; [|vm_compute in Hc; discriminate].
  destruct (empty_sections_leave_empty_file
              (world_with sample_config sample_dataset (λ _, Ok []))
              (args_of core_dataset "results/" "m" false None false) c
              old_os (os_makedirs "results" old_os).1)
    as (Hr & Hf & _); try reflexivity.
  - exact Hc.
  - vm_compute in Hc. inversion Hc. reflexivity.
  - vm_compute. discriminate.
  - split; [exact Hr | exact Hf].
Defined.

(** ** The file of all margins *)

Lemma write_lines_spec (path : string) (margins : list float)
    (content : list chunk) (st : os_state) :
  fs st !! path = Some (File content) →
  write_lines path margins st
  = ({| fs := <[path := File (content ++ map JsonLine margins)]> (fs st);
        oplog := oplog st ++ map (λ m, EvWrite path (JsonLine m)) margins |},
     Ok ()).
Proof.
  revert content st. induction margins as [|m margins IH]; intros content st Hp.
  - cbn. rewrite !app_nil_r, insert_id by exact Hp. now destruct st.
  - cbn [write_lines]. rewrite os_bind_unfold. unfold file_write. rewrite Hp.
    rewrite (IH (content ++ [JsonLine m])) by apply lookup_insert_eq.
    cbn [fs oplog map]. now rewrite insert_insert_eq, <- !app_assoc.
Qed.

Lemma write_all_unfold (a : args) (margins : list float) :
  write_all a margins
  = (_ ← os_makedirs (os_path_dirname (output_path_all a));
     existing ← os_path_exists (output_path_all a);
     _ ← (if existing : bool then os_remove (output_path_all a)
          else os_ret ());
     _ ← open_w (output_path_all a);
     write_lines (output_path_all a) margins).
Proof. reflexivity. Qed.

(** X8: with [--save_all], when the directory can be made and the path is
    not a directory, the file [<output_dir><model>_all.jsonl] holds
    afterwards one line per margin, in the order of the margins, and
    nothing of a file that was there before. *)
Theorem save_all_lines (a : args) (margins : list float)
    (st st1 : os_state) :
  os_makedirs (os_path_dirname (output_path_all a)) st = (st1, Ok ()) →
  fs st1 !! output_path_all a ≠ Some Dir →
  let run := write_all a margins st in
  run.2 = Ok ()
  ∧ fs run.1 !! output_path_all a = Some (File (map JsonLine margins))
  ∧ (∀ p, p ≠ output_path_all a → fs run.1 !! p = fs st1 !! p)
  ∧ oplog run.1
    = oplog st1
      ++ (if bool_decide (is_Some (fs st1 !! output_path_all a))
          then [EvRemove (output_path_all a)] else [])
      ++ [EvOpenW (output_path_all a)]
      ++ map (λ m, EvWrite (output_path_all a) (JsonLine m)) margins.
Proof.
  intros Hmk Hnd run. subst run.
  rewrite write_all_unfold, (prepare_ok _ _ st st1 Hmk Hnd).
  rewrite (write_lines_spec _ _ []) by apply lookup_insert_eq.
  cbn [fst snd fs oplog app]. rewrite insert_insert_eq.
  split; [reflexivity|]. split; [apply lookup_insert_eq|].
  split; [intros p Hp; now apply lookup_insert_ne|].
  now rewrite <- !app_assoc.
Qed.

Lemma save_all_lines_witness :
  fs (write_all (args_of core_dataset "results/" "m" false None true)
        [2%float; (-1)%float] old_os).1 !! "results/m_all.jsonl"
  = Some (File [JsonLine 2%float; JsonLine (-1)%float]).
Proof.
  destruct (save_all_lines (args_of core_dataset "results/" "m" false None true)
              [2%float; (-1)%float] old_os (os_makedirs "results" old_os).1)
    as (_ & Hfile & _).
  - vm_compute. reflexivity.
  - vm_compute. discriminate.
  - exact Hfile.
Defined.

(** ** The directory of the output *)

Lemma drop_while_all {A} (p : A → bool) (l : list A) :
  Forall (λ x, p x = true) l → drop_while p l = [].
Proof.
  induction 1 as [|x l Hx _ IH]; [reflexivity|]. cbn. now rewrite Hx.
Qed.

Lemma slash_free_chars (s : string) :
  slash_free s = true →
  Forall (λ c, negb (Ascii.eqb slash c) = true) (list_ascii_of_string s).
Proof.
  induction s as [|c s IH]; cbn; [constructor|].
  intros H. apply andb_true_iff in H. destruct H as [Hc Hs].
  constructor; auto.
Qed.

Lemma slash_free_append (s1 s2 : string) :
  slash_free (s1 +:+ s2) = slash_free s1 && slash_free s2.
Proof.
  induction s1 as [|c s1 IH]; [reflexivity|].
  change (negb (Ascii.eqb slash c) && slash_free (s1 +:+ s2)
          = negb (Ascii.eqb slash c) && slash_free s1 && slash_free s2).
  now rewrite IH, andb_assoc.
Qed.

Lemma dirname_slash_free (p : string) :
  slash_free p = true → os_path_dirname p = "".
Proof.
  intros Hp. unfold os_path_dirname. cbv zeta.
  rewrite (drop_while_all (λ c, negb (Ascii.eqb slash c))); [reflexivity|].
  apply Forall_rev. exact (slash_free_chars p Hp).
Qed.

(** X9: with an empty [--output_dir] and a model identifier without slash
    there is no directory to make: [os.makedirs] is called on the empty
    path and the run ends in [FileNotFoundError] after all the scores have
    been computed, without a file being touched. *)
Theorem empty_output_dir_fails {num : Type} `{Scalar num} (w : world num)
    (a : args) (c : computed) (st : os_state) :
  output_dir a = "" → slash_free (model a) = true →
  compute w a = Ok c →
  main w a st = (st, Raise (FileNotFoundError "")).
Proof.
  intros Hdir Hmodel Hc. unfold main. rewrite os_bind_unfold.
  unfold os_lift. rewrite Hc. unfold save.
  rewrite os_bind_unfold, write_summary_unfold, os_bind_unfold.
  rewrite dirname_slash_free.
  - reflexivity.
  - unfold output_path. rewrite Hdir, !slash_free_append, Hmodel. reflexivity.
Qed.

Lemma empty_output_dir_fails_witness :
  main (sample_world sample_dataset)
    (args_of core_dataset "" "m" false None false) old_os
  = (old_os, Raise (FileNotFoundError "")).
Proof.
  destruct (compute (sample_world sample_dataset)
              (args_of core_dataset "" "m" false None false))
    as [c|e] eqn:Hc; [|vm_compute in Hc; discriminate].
  exact (empty_output_dir_fails (sample_world sample_dataset)
           (args_of core_dataset "" "m" false None false) c old_os
           eq_refl eq_refl Hc).
Defined.

Lemma drop_while_app_all {A} (p : A → bool) (l1 l2 : list A) :
  Forall (λ x, p x = true) l1 → drop_while p (l1 ++ l2) = drop_while p l2.
Proof.
  induction 1 as [|x l Hx _ IH]; [reflexivity|]. cbn. now rewrite Hx.
Qed.

Lemma ends_without_slash_rev (d : string) :
  ends_without_slash d = true →
  ∃ c rest, rev (list_ascii_of_string d) = c :: rest
            ∧ Ascii.eqb slash c = false.
Proof.
  induction d as [|c d IH]; [discriminate|].
  destruct d as [|c' d].
  - cbn. intros Hc. exists c, []. split; [reflexivity|].
    now apply negb_true_iff in Hc.
  - intros Hd. change (ends_without_slash (String c' d) = true) in Hd.
    destruct (IH Hd) as (x & rest & Hrev & Hx).
    exists x, (rest ++ [c]). split; [|exact Hx].
    change (list_ascii_of_string (String c (String c' d)))
      with (c :: list_ascii_of_string (String c' d)).
    cbn [rev]. now rewrite Hrev.
Qed.

(** The directory of [dir/file], for a directory that does not end in a
    slash and a file name without slash. *)
Lemma dirname_of_file (dir file : string) :
  ends_without_slash dir = true → slash_free file = true →
  os_path_dirname (dir +:+ "/" +:+ file) = dir.
Proof.
  intros Hdir Hfile. unfold os_path_dirname. cbv zeta.
  rewrite !list_ascii_append, !rev_app_distr.
  change (list_ascii_of_string "/") with [slash]. cbn [rev app].
  rewrite <- app_assoc.
  rewrite (drop_while_app_all (λ c, negb (Ascii.eqb slash c)))
    by (apply Forall_rev; exact (slash_free_chars file Hfile)).
  destruct (ends_without_slash_rev dir Hdir) as (c & rest & Hrev & Hc).
  rewrite Hrev. cbn [app drop_while].
  change (Ascii.eqb slash slash) with true. cbn [negb drop_while].
  rewrite Hc, ?Ascii.eqb_refl. rewrite <- Hrev, rev_involutive.
  apply string_of_list_ascii_of_string.
Qed.

(** X10: when the output path is [dir/file], with no slash at the end of
    [dir] nor in [file] (as for the model [org/name] under [results/]), the
    run asks for the directory [dir] before it writes.  Where neither [dir]
    nor an ancestor of it is a regular file this succeeds, [dir] and its
    ancestors are directories afterwards and every other path is as before;
    where an ancestor is a regular file it raises [NotADirectoryError], and
    where [dir] itself is one [FileExistsError], nothing being touched. *)
Theorem summary_directory_made (a : args) (dir file : string)
    (st : os_state) :
  output_path a = dir +:+ "/" +:+ file →
  ends_without_slash dir = true → slash_free file = true →
  let made := os_makedirs (os_path_dirname (output_path a)) st in
  ((∀ p, p ∈ ancestors dir ++ [dir] → is_file (fs st !! p) = false) →
     made.2 = Ok ()
     ∧ oplog made.1 = oplog st ++ [EvMakedirs dir]
     ∧ (∀ p, p ∈ ancestors dir ++ [dir] → fs made.1 !! p = Some Dir)
     ∧ (∀ p, p ∉ ancestors dir ++ [dir] → fs made.1 !! p = fs st !! p))
  ∧ (∀ p, p ∈ ancestors dir → is_file (fs st !! p) = true →
       ∃ q, made = (st, Raise (NotADirectoryError q))
            ∧ q ∈ ancestors dir ++ [dir])
  ∧ ((∀ p, p ∈ ancestors dir → is_file (fs st !! p) = false) →
     is_file (fs st !! dir) = true →
     made = (st, Raise (FileExistsError dir))).
Proof.
  intros Hpath Hdir Hfile. cbv zeta.
  rewrite Hpath, (dirname_of_file dir file Hdir Hfile). unfold os_makedirs.
  assert (Hne : String.eqb dir "" = false)
    by (destruct dir; [discriminate | reflexivity]).
  rewrite Hne. split; [|split].
  - intros Hall.
    rewrite blocked_none
      by (intros p Hp; apply Hall, elem_of_app; now left).
    assert (Hd : is_file (fs st !! dir) = false)
      by (apply Hall, elem_of_app; right; apply list_elem_of_here).
    destruct (fs st !! dir) as [[content|]|]; [discriminate| |];
      (cbn [fst snd fs oplog]; repeat split;
       [apply make_dirs_in | apply make_dirs_out]).
  - intros p Hp Hf.
    destruct (blocked_some (fs st) (ancestors dir) dir p Hp Hf) as (q & -> & Hq).
    now exists q.
  - intros Hall Hd. rewrite blocked_none by exact Hall.
    destruct (fs st !! dir) as [[content|]|]; [reflexivity|discriminate..].
Qed.

Lemma summary_directory_made_witness :
  fs (os_makedirs
        (os_path_dirname
           (output_path
              (args_of core_dataset "results/" "org/name" false None false)))
        old_os).1 !! "results/org"
  = Some Dir.
Proof.
  destruct (summary_directory_made
              (args_of core_dataset "results/" "org/name" false None false)
              "results/org" "name.json" old_os eq_refl eq_refl eq_refl)
    as [Hok _].
  apply Hok.
  - intros p Hp. vm_compute in Hp.
    apply elem_of_cons in Hp as [->|Hp]; [reflexivity|].
    apply elem_of_cons in Hp as [->|Hp]; [reflexivity|].
    now apply elem_of_nil in Hp.
  - vm_compute. apply list_elem_of_further, list_elem_of_here.
Defined.

(** A regular file at [results] stops the run before anything is written. *)
Example results_is_a_file :
  os_makedirs
    (os_path_dirname
       (output_path
          (args_of core_dataset "results/" "org/name" false None false)))
    {| fs := {["results" := File []]}; oplog := [] |}
  = ({| fs := {["results" := File []]}; oplog := [] |},
     Raise (NotADirectoryError "results/org")).
Proof. reflexivity. Qed.

End RunnerMore.

(** * Further properties of the sweep submitter *)
Module SubmitterMore.
Import Py Submitter SubmitterSpec SubmitterProps.

(** ** Names *)

Lemma replace_char_no_slash (s : string) :
  has_slash (replace_char "/" "-" s) = false.
Proof.
  induction s as [|c s IH]; [reflexivity|].
  cbn [replace_char has_slash]. rewrite IH, orb_false_r.
  destruct (Ascii.eqb c "/") eqn:Hc; [reflexivity | exact Hc].
Qed.

Lemma job_name_no_slash (model experiment_group : string) :
  has_slash (job_name model experiment_group) = false.
Proof. apply replace_char_no_slash. Qed.

(** ** The name of a document *)

Lemma update_keeps (f : task → result task) (n : string) (d d' : document) :
  keeps_name f → doc_named n d → update_task0 f d = Ok d' → doc_named n d'.
Proof.
  intros Hf (Hdesc & t & rest & Ht & Hn) Hup. unfold update_task0 in Hup.
  rewrite Ht in Hup. unfold mbind, result_bind, Py.bind in Hup.
  destruct (f t) as [t'|] eqn:Hft; [|discriminate]. inversion Hup; subst d'.
  split; [exact Hdesc|]. exists t', rest. split; [reflexivity|].
  now rewrite (Hf _ _ Hft).
Qed.

Lemma set_gpuCount_keeps (v : yaml) : keeps_name (set_gpuCount v).
Proof. intros t t' H. now inversion H. Qed.

Lemma set_arguments0_keeps (s : string) : keeps_name (set_arguments0 s).
Proof.
  intros t t' H. unfold set_arguments0 in H.
  destruct (arguments t); [discriminate | now inversion H].
Qed.

Lemma append_arguments0_keeps (s : string) : keeps_name (append_arguments0 s).
Proof.
  intros t t' H. unfold append_arguments0 in H.
  destruct (arguments t); [discriminate|].
  exact (set_arguments0_keeps _ _ _ H).
Qed.

Lemma set_name_named (n : string) (d d' : document) :
  update_task0 (set_name n) (set_description n d) = Ok d' → doc_named n d'.
Proof.
  unfold update_task0, set_description. cbn [tasks description].
  destruct (tasks d) as [|t rest]; [discriminate|].
  intros H. inversion H. split; [reflexivity|]. eexists _, _. split; reflexivity.
Qed.

Lemma cond_keeps (c : bool) (f : task → result task) (n : string)
    (d d' : document) :
  keeps_name f → doc_named n d →
  (if c then update_task0 f d else Ok d) = Ok d' → doc_named n d'.
Proof.
  intros Hf Hd H. destruct c; [exact (update_keeps f n d d' Hf Hd H)|].
  inversion H; subst; exact Hd.
Qed.

(** A document that is filled in carries the name of its job. *)
Lemma fill_document_named (a : args) (d1 : document) (m : string)
    (mc : model_config) (script n : string) (d : document) :
  fill_document a d1 m mc script n = Ok d → doc_named n d.
Proof.
  unfold fill_document. unfold mbind, result_bind, Py.bind. intros H.
  destruct (update_task0 (set_name n) _) as [d0|] eqn:H0; [|discriminate].
  apply set_name_named in H0.
  destruct (match mc !! "num_gpus" with Some _ => _ | None => _ end)
    as [d2|] eqn:H2; [|discriminate].
  assert (N2 : doc_named n d2).
  { destruct (mc !! "num_gpus");
      [exact (update_keeps _ n d0 d2 (set_gpuCount_keeps _) H0 H2)
      | inversion H2; subst; exact H0]. }
  destruct (getitem mc "tokenizer"); [|discriminate].
  destruct (getitem mc "batch_size"); [|discriminate].
  destruct (update_task0 (set_arguments0 _) d2) as [d3|] eqn:H3; [|discriminate].
  pose proof (update_keeps _ n d2 d3 (set_arguments0_keeps _) N2 H3) as N3.
  destruct (getitem mc "chat_template") as [ct|]; [|discriminate].
  destruct (if is_not_none ct then _ else _) as [d4|] eqn:H4; [|discriminate].
  pose proof (cond_keeps _ _ n d3 d4 (append_arguments0_keeps _) N3 H4) as N4.
  destruct (getitem mc "trust_remote_code") as [trc|]; [|discriminate].
  destruct (if truthy trc then _ else _) as [d5|] eqn:H5; [|discriminate].
  pose proof (cond_keeps _ _ n d4 d5 (append_arguments0_keeps _) N4 H5) as N5.
  destruct (if negb (upload_to_hub a) then _ else _) as [d6|] eqn:H6;
    [|discriminate].
  pose proof (cond_keeps _ _ n d5 d6 (append_arguments0_keeps _) N5 H6) as N6.
  destruct (if eval_on_pref_sets a then _ else _) as [d7|] eqn:H7;
    [|discriminate].
  pose proof (cond_keeps _ _ n d6 d7 (append_arguments0_keeps _) N6 H7) as N7.
  destruct (mc !! "ref_model") as [r|]; [|inversion H; subst; exact N7].
  exact (cond_keeps _ _ n d7 d (append_arguments0_keeps _) N7 H).
Qed.

(** ** One entry *)

(** What the body of the loop does to the state: nothing when it raises or
    skips the entry, and otherwise the events of one job. *)
Lemma submit_model_cases (a : args) (configs : configs_t) (d1 : document)
    (m : string) (st : state) :
  (∃ e, submit_model a configs d1 m st = (st, Raise e))
  ∨ (submit_model a configs d1 m st = (st, Ok ())
     ∧ ∃ mc dpo, configs_get configs m = Ok mc ∧ mc !! "dpo" = Some dpo
                 ∧ skipped a dpo = true)
  ∨ (∃ mc dpo d,
        configs_get configs m = Ok mc ∧ mc !! "dpo" = Some dpo
        ∧ skipped a dpo = false
        ∧ fill_document a d1 m mc (select_script a dpo).2
            (job_name m (select_script a dpo).1) = Ok d
        ∧ submit_model a configs d1 m st
          = ({| auto_created_exists := true;
                trace :=
                  trace st
                  ++ (if auto_created_exists st then []
                      else [EvMakedirs auto_created])
                  ++ [EvWriteYaml
                        (job_file (job_name m (select_script a dpo).1)) d;
                      EvPopen
                        (submit_cmd
                           (job_file (job_name m (select_script a dpo).1)))] |},
             Ok ())).
Proof.
  unfold submit_model. rewrite sub_bind_unfold. unfold lift.
  destruct (configs_get configs m) as [mc|e]; [|left; eauto].
  rewrite sub_bind_unfold. unfold getitem.
  destruct (mc !! "dpo") as [dpo|] eqn:Hdpo; [|left; eauto].
  destruct (skipped a dpo) eqn:Hskip.
  { right. left. split; [reflexivity|]. eauto. }
  destruct (select_script a dpo) as [group script] eqn:Hsel.
  rewrite sub_bind_unfold.
  destruct (fill_document a d1 m mc script (job_name m group)) as [d|e] eqn:Hfill;
    [|left; eauto].
  right. right. exists mc, dpo, d. rewrite ?Hsel. cbn [fst snd].
  repeat (split; [first [reflexivity | assumption]|]).
  rewrite sub_bind_unfold. unfold ensure_auto_created, emit.
  destruct st as [ex tr]. cbn [auto_created_exists trace].
  destruct ex; rewrite !sub_bind_unfold; cbn [auto_created_exists trace];
    unfold job_file, submit_cmd; now rewrite <- ?app_assoc.
Qed.

(** ** The sweep *)

Lemma sweep_cons (a : args) (configs : configs_t) (d1 : document)
    (m : string) (ms : list string) (st : state) :
  sweep a configs d1 (m :: ms) st
  = match submit_model a configs d1 m st with
    | (st', Ok _) => sweep a configs d1 ms st'
    | (st', Raise e) => (st', Raise e)
    end.
Proof. reflexivity. Qed.

(** Whatever the entries, and whether the sweep ends normally or not, what
    it adds to the trace is a sequence of jobs. *)
Lemma sweep_job_events (a : args) (configs : configs_t) (d1 : document)
    (ms : list string) (st : state) :
  ∃ evs,
    trace (sweep a configs d1 ms st).1 = trace st ++ evs
    ∧ job_events (auto_created_exists st) evs
        (auto_created_exists (sweep a configs d1 ms st).1).
Proof.
  revert st. induction ms as [|m ms IH]; intros st.
  - exists []. cbn. rewrite app_nil_r. split; [reflexivity | constructor].
  - rewrite sweep_cons.
    destruct (submit_model_cases a configs d1 m st)
      as [[e ->] | [[-> _] | (mc & dpo & d & _ & _ & _ & Hfill & ->)]].
    + exists []. cbn. rewrite app_nil_r. split; [reflexivity | constructor].
    + apply IH.
    + destruct (IH {| auto_created_exists := true;
                      trace := trace st
                        ++ (if auto_created_exists st then []
                            else [EvMakedirs auto_created])
                        ++ [EvWriteYaml
                              (job_file (job_name m (select_script a dpo).1)) d;
                            EvPopen
                              (submit_cmd
                                 (job_file (job_name m (select_script a dpo).1)))] |})
        as (evs & Htr & Hev).
      cbn [trace auto_created_exists] in Htr, Hev.
      eexists. split.
      * rewrite Htr, <- !app_assoc. reflexivity.
      * apply je_job; [apply job_name_no_slash| |exact Hev].
        exact (fill_document_named _ _ _ _ _ _ _ Hfill).
Qed.

(** ** The script before the sweep *)

Ltac sub_step :=
  rewrite sub_bind_unfold; cbv beta iota;
  cbn [fst snd auto_created_exists trace negb].

Ltac stop_here :=
  eexists; (split; [|left; rewrite <- ?app_assoc; solve [eauto]]);
  repeat constructor.

(** The script either stops before the sweep, having only opened files for
    reading, or goes on to the sweep over the selected models. *)
Lemma submit_shape (a : args) (w : world) (st : state) :
  ∃ reads,
    Forall (λ e, is_read e = true) reads
    ∧ ((∃ e, submit a w st
             = ({| auto_created_exists := auto_created_exists st;
                   trace := trace st ++ reads |}, Raise e))
       ∨ (∃ d1 configs ms,
             (if eval_on_bon a then eval_bon_configs_yaml w
              else eval_configs_yaml w) = Some configs
             ∧ select_models a configs = Ok ms
             ∧ submit a w st
               = sweep a configs d1 ms
                   {| auto_created_exists := auto_created_exists st;
                      trace := trace st ++ reads |})).
Proof.
  unfold submit, read_yaml, py_assert, lift, emit.
  destruct st as [ex tr]. cbn [auto_created_exists trace].
  destruct (eval_dpo_only a && eval_rm_only a); repeat sub_step.
  { exists []. split; [constructor|]. left. rewrite app_nil_r. eauto. }
  destruct (beaker_eval_yaml w) as [d1|]; repeat sub_step.
  2: { stop_here. }
  destruct (eval_on_bon a) eqn:Hbon; repeat sub_step.
  all: match goal with
       | |- context [match ?o with Some _ => _ | None => _ end] =>
           destruct o as [configs|] eqn:Hco
       end; repeat sub_step.
  all: try (stop_here; fail).
  all: rewrite ?andb_true_r, ?andb_false_r.
  all: destruct (eval_on_pref_sets a); cbn [negb andb]; repeat sub_step.
  all: try (stop_here; fail).
  all: destruct (HF_TOKEN w) as [token|]; repeat sub_step.
  all: try (stop_here; fail).
  all: destruct (update_task0 (set_image_cluster _ _ _) d1) as [d2|];
       repeat sub_step.
  all: try (stop_here; fail).
  all: destruct (update_task0 (set_token token) d2) as [d3|];
       repeat sub_step.
  all: try (stop_here; fail).
  all: destruct (select_models a configs) as [ms|] eqn:Hms; repeat sub_step.
  all: try (stop_here; fail).
  all: eexists; (split; [|right; exists d3, configs, ms; rewrite <- app_assoc;
       split; [first [assumption | reflexivity]|];
       split; [first [assumption | reflexivity]|]; reflexivity]);
       repeat constructor.
Qed.

(** ** Reading the trace of a run *)

Lemma written_docs_app (l1 l2 : list event) :
  written_docs (l1 ++ l2) = written_docs l1 ++ written_docs l2.
Proof.
  induction l1 as [|e l1 IH]; [reflexivity|].
  destruct e; cbn; now rewrite ?IH.
Qed.

Lemma popen_cmds_app (l1 l2 : list event) :
  popen_cmds (l1 ++ l2) = popen_cmds l1 ++ popen_cmds l2.
Proof.
  induction l1 as [|e l1 IH]; [reflexivity|].
  destruct e; cbn; now rewrite ?IH.
Qed.

Lemma makedirs_count_app (l1 l2 : list event) :
  makedirs_count (l1 ++ l2) = (makedirs_count l1 + makedirs_count l2)%nat.
Proof.
  induction l1 as [|e l1 IH]; [reflexivity|].
  destruct e; cbn; now rewrite ?IH.
Qed.

Lemma reads_only (reads : list event) :
  Forall (λ e, is_read e = true) reads →
  written_docs reads = [] ∧ popen_cmds reads = []
  ∧ makedirs_count reads = 0%nat.
Proof.
  induction 1 as [|e reads He _ IH]; [repeat split|].
  destruct e; try discriminate. exact IH.
Qed.

Lemma job_events_pairing (b b' : bool) (evs : list event) :
  job_events b evs b' →
  popen_cmds evs = map (λ p, submit_cmd p.1) (written_docs evs).
Proof.
  induction 1 as [|b b' n d rest Hn Hd _ IH]; [reflexivity|].
  rewrite popen_cmds_app, written_docs_app.
  destruct b; cbn; now rewrite IH.
Qed.

Lemma job_events_names (b b' : bool) (evs : list event) :
  job_events b evs b' →
  Forall (λ p, ∃ n, p.1 = job_file n ∧ has_slash n = false ∧ doc_named n p.2)
    (written_docs evs).
Proof.
  induction 1 as [|b b' n d rest Hn Hd _ IH]; [constructor|].
  rewrite written_docs_app.
  assert (Hhead : written_docs (if b then [] else [EvMakedirs auto_created]) = [])
    by (destruct b; reflexivity).
  rewrite Hhead. cbn. constructor; [|exact IH]. exists n. auto.
Qed.

Lemma job_events_existing (b' : bool) (evs : list event) :
  job_events true evs b' → makedirs_count evs = 0%nat ∧ b' = true.
Proof.
  remember true as b eqn:Hb. induction 1 as [|b b' n d rest Hn Hd _ IH].
  - auto.
  - subst b. cbn. apply IH. reflexivity.
Qed.

Lemma job_events_makedirs (b b' : bool) (evs : list event) :
  job_events b evs b' →
  makedirs_count evs
  = (if b then 0 else if written_docs evs is [] then 0 else 1)%nat
  ∧ b' = (if written_docs evs is [] then b else true).
Proof.
  destruct 1 as [|b b' n d rest Hn Hd Hrest]; [destruct b; auto|].
  apply job_events_existing in Hrest. destruct Hrest as [Hc ->].
  rewrite makedirs_count_app, written_docs_app.
  destruct b; cbn; rewrite Hc; auto.
Qed.

(** The trace of a run of the script: files opened for reading, then the
    events of the jobs. *)
Lemma submit_run (a : args) (w : world) (b : bool) :
  ∃ reads evs,
    trace (submit a w (initial b)).1 = reads ++ evs
    ∧ Forall (λ e, is_read e = true) reads
    ∧ job_events b evs (auto_created_exists (submit a w (initial b)).1).
Proof.
  destruct (submit_shape a w (initial b))
    as (reads & Hreads & [[e ->] | (d1 & configs & ms & _ & _ & ->)]).
  - exists reads, []. cbn. rewrite app_nil_r. repeat split; [exact Hreads|].
    constructor.
  - destruct (sweep_job_events a configs d1 ms
                {| auto_created_exists := auto_created_exists (initial b);
                   trace := trace (initial b) ++ reads |})
      as (evs & Htr & Hev).
    exists reads, evs. cbn in *. auto.
Qed.

(** X11: every document that is written is handed to the submission command,
    in the same order, and no command is started for anything else; this
    holds for every run, also one that ends in an exception. *)
Theorem every_document_is_submitted (a : args) (w : world) (b : bool) :
  let tr := trace (submit a w (initial b)).1 in
  popen_cmds tr = map (λ p, submit_cmd p.1) (written_docs tr).
Proof.
  intros tr. subst tr.
  destruct (submit_run a w b) as (reads & evs & -> & Hreads & Hev).
  destruct (reads_only reads Hreads) as (Hw & Hp & _).
  rewrite popen_cmds_app, written_docs_app, Hw, Hp. cbn.
  exact (job_events_pairing _ _ _ Hev).
Qed.

(** X12: every document is written to
    [beaker_configs/auto_created/<name>.yaml], where the name has no slash
    and is the description of the document and the name of its first
    task. *)
Theorem documents_named_without_slash (a : args) (w : world) (b : bool) :
  Forall (λ p, ∃ n, p.1 = job_file n ∧ has_slash n = false ∧ doc_named n p.2)
    (written_docs (trace (submit a w (initial b)).1)).
Proof.
  destruct (submit_run a w b) as (reads & evs & -> & Hreads & Hev).
  destruct (reads_only reads Hreads) as (Hw & _ & _).
  rewrite written_docs_app, Hw. cbn.
  exact (job_events_names _ _ _ Hev).
Qed.

(** X13: the directory of the job files is made at most once in a run: not
    at all when it exists or when no document is written, and once
    otherwise; after a run that wrote a document it exists. *)
Theorem directory_made_once (a : args) (w : world) (b : bool) :
  let run := submit a w (initial b) in
  makedirs_count (trace run.1)
  = (if b then 0 else if written_docs (trace run.1) is [] then 0 else 1)%nat
  ∧ auto_created_exists run.1
    = (if written_docs (trace run.1) is [] then b else true).
Proof.
  intros run. subst run.
  destruct (submit_run a w b) as (reads & evs & -> & Hreads & Hev).
  destruct (reads_only reads Hreads) as (Hw & _ & Hm).
  rewrite makedirs_count_app, written_docs_app, Hw, Hm. cbn.
  exact (job_events_makedirs _ _ _ Hev).
Qed.

(** ** Selecting the models *)

(** When nothing is wrong before the sweep, the script is the sweep over the
    selected models, started after the two reads. *)
Lemma submit_reaches_sweep (a : args) (w : world) (b : bool)
    (d1 : document) (configs : configs_t) (token : string) :
  eval_dpo_only a && eval_rm_only a = false →
  eval_on_pref_sets a && eval_on_bon a = false →
  beaker_eval_yaml w = Some d1 →
  (if eval_on_bon a then eval_bon_configs_yaml w else eval_configs_yaml w)
  = Some configs →
  HF_TOKEN w = Some token →
  template_ok d1 →
  ∃ d1' reads,
    Forall (λ e, is_read e = true) reads
    ∧ template_ok d1'
    ∧ submit a w (initial b)
      = match select_models a configs with
        | Ok ms =>
            sweep a configs d1' ms
              {| auto_created_exists := b; trace := reads |}
        | Raise e => ({| auto_created_exists := b; trace := reads |}, Raise e)
        end.
Proof.
  intros Hf Hm Hd1 Hc Htok (t & rest & Ht & Henv & Hargs).
  destruct (lookup_lt_is_Some_2 (envVars t) 6 Henv) as [ev Hev].
  destruct d1 as [desc ts]. cbn in Ht. subst ts.
  destruct t as [tn ti tc tp tg te ta]. cbn in Hev, Henv, Hargs.
  unfold submit, read_yaml, py_assert, lift, emit, initial.
  rewrite Hf, Hm, Hd1, Htok. repeat sub_step.
  destruct (eval_on_bon a); rewrite Hc; repeat sub_step.
  all: unfold update_task0, set_image_cluster, mbind, result_bind, Py.bind;
    cbn [tasks description]; repeat sub_step;
    cbn [tasks description]; unfold set_token; cbn [envVars]; rewrite Hev;
    repeat sub_step.
  all: eexists _, _; (split; [|split]);
    [ | | destruct (select_models a configs); reflexivity ].
  all: try (cbn; repeat constructor; fail).
  all: eexists _, _; (split; [reflexivity|]); cbn [envVars arguments];
    split; [rewrite length_insert; exact Henv | exact Hargs].
Qed.

(** X14: a [--model] that is not a key of the configuration ends the script
    with [ValueError] before any document is written or submitted. *)
Theorem unknown_model_rejected (a : args) (w : world) (b : bool)
    (d1 : document) (configs : configs_t) (token m : string) :
  eval_dpo_only a && eval_rm_only a = false →
  eval_on_pref_sets a && eval_on_bon a = false →
  beaker_eval_yaml w = Some d1 →
  (if eval_on_bon a then eval_bon_configs_yaml w else eval_configs_yaml w)
  = Some configs →
  HF_TOKEN w = Some token →
  template_ok d1 →
  model a = Some m → m ∉ keys configs →
  (submit a w (initial b)).2
  = Raise (ValueError ("Model " +:+ m +:+ " not found in configs"))
  ∧ written_docs (trace (submit a w (initial b)).1) = []
  ∧ popen_cmds (trace (submit a w (initial b)).1) = []
  ∧ auto_created_exists (submit a w (initial b)).1 = b.
Proof.
  intros Hf Hm Hd1 Hc Htok Htpl Hmodel Hnotin.
  destruct (submit_reaches_sweep a w b d1 configs token Hf Hm Hd1 Hc Htok Htpl)
    as (d1' & reads & Hreads & _ & ->).
  unfold select_models. rewrite Hmodel.
  rewrite bool_decide_eq_false_2 by exact Hnotin. cbn [fst snd trace].
  destruct (reads_only reads Hreads) as (Hw & Hp & _). auto.
Qed.

Lemma unknown_model_rejected_witness :
  (submit (args_with (Some "nobody") false false) (world_of two_configs)
     (initial false)).2
  = Raise (ValueError "Model nobody not found in configs")
  ∧ written_docs
      (trace (submit (args_with (Some "nobody") false false)
                (world_of two_configs) (initial false)).1) = [].
Proof.
  destruct (unknown_model_rejected (args_with (Some "nobody") false false)
              (world_of two_configs) false sample_template two_configs
              "hf_token" "nobody")
    as (Hr & Hw & _); try reflexivity.
  - eexists _, _. split; [reflexivity|]. split; [cbn; lia | done].
  - intros Hin. cbn in Hin.
    repeat (apply elem_of_cons in Hin; destruct Hin as [Hin|Hin];
            [discriminate|]).
    now apply elem_of_nil in Hin.
  - split; [exact Hr | exact Hw].
Defined.

(** X15: with [--model m], for a key [m] of the configuration, at most one
    document is written, and it is the one of [m]. *)
Theorem single_model_only (a : args) (w : world) (b : bool) (m : string) :
  model a = Some m →
  (length (written_docs (trace (submit a w (initial b)).1)) ≤ 1)%nat
  ∧ Forall (λ p, ∃ group, p.1 = job_file (job_name m group))
      (written_docs (trace (submit a w (initial b)).1)).
Proof.
  intros Hmodel.
  destruct (submit_shape a w (initial b))
    as (reads & Hreads & [[e ->] | (d1 & configs & ms & _ & Hsel & ->)]);
    destruct (reads_only reads Hreads) as (Hw & _ & _).
  - cbn [fst trace initial]. cbn. rewrite Hw. split; [cbn; lia | constructor].
  - unfold select_models in Hsel. rewrite Hmodel in Hsel.
    destruct (bool_decide _); [|discriminate]. inversion Hsel; subst ms.
    rewrite sweep_cons.
    destruct (submit_model_cases a configs d1 m
                {| auto_created_exists := auto_created_exists (initial b);
                   trace := trace (initial b) ++ reads |})
      as [[e ->] | [[-> _] | (mc & dpo & d & _ & _ & _ & _ & ->)]];
      cbn [sweep sub_ret fst snd trace initial];
      rewrite ?written_docs_app, ?Hw; cbn.
    + split; [lia | constructor].
    + split; [lia | constructor].
    + assert (Hh : written_docs (if b then [] else [EvMakedirs auto_created]) = [])
        by (destruct b; reflexivity).
      rewrite Hh. cbn. split; [lia|]. repeat constructor. eauto.
Qed.

Lemma single_model_only_witness :
  written_docs
    (trace (submit (args_with (Some "org/dpo") false false)
              (world_of two_configs) (initial false)).1)
  ≠ []
  ∧ (length (written_docs
               (trace (submit (args_with (Some "org/dpo") false false)
                         (world_of two_configs) (initial false)).1)) ≤ 1)%nat.
Proof.
  split; [vm_compute; discriminate|].
  exact (proj1 (single_model_only (args_with (Some "org/dpo") false false)
                  (world_of two_configs) false "org/dpo" eq_refl)).
Defined.

(** X16: asking for the preference sets and for best-of-N at once ends the
    script with an assertion error after the configuration files have been
    read, and before anything is written or submitted. *)
Theorem conflicting_modes_rejected (a : args) (w : world) (b : bool)
    (d1 : document) (configs : configs_t) :
  eval_dpo_only a && eval_rm_only a = false →
  eval_on_pref_sets a = true → eval_on_bon a = true →
  beaker_eval_yaml w = Some d1 →
  eval_bon_configs_yaml w = Some configs →
  submit a w (initial b)
  = ({| auto_created_exists := b;
        trace := [EvOpenRead "scripts/configs/beaker_eval.yaml";
                  EvOpenRead "scripts/configs/eval_bon_configs.yaml"] |},
     Raise (AssertionError
              "Only one of eval_on_pref_sets and eval_on_bon can be True")).
Proof.
  intros Hf Hp Hb Hd1 Hc.
  unfold submit, read_yaml, py_assert, lift, emit, initial.
  rewrite Hf, Hp, Hb, Hd1, Hc. reflexivity.
Qed.

Lemma conflicting_modes_rejected_witness :
  (submit {| eval_on_pref_sets := true; eval_on_bon := true;
             image := "i"; cluster := "c"; upload_to_hub := true;
             model := None; ref_free := false;
             eval_dpo_only := false; eval_rm_only := false |}
     (world_of two_configs) (initial true)).2
  = Raise (AssertionError
             "Only one of eval_on_pref_sets and eval_on_bon can be True").
Proof.
  rewrite (conflicting_modes_rejected
             {| eval_on_pref_sets := true; eval_on_bon := true;
                image := "i"; cluster := "c"; upload_to_hub := true;
                model := None; ref_free := false;
                eval_dpo_only := false; eval_rm_only := false |}
             (world_of two_configs) true
             sample_template two_configs eq_refl eq_refl eq_refl eq_refl
             eq_refl).
  reflexivity.
Defined.

(** ** The document of an entry *)

Lemma fill_document_closed (a : args) (d1 : document) (m : string)
    (mc : model_config) (dpo tk bs ct trc : yaml) (t : task)
    (a0 : string) (ar : list string) (rest : list task) :
  tasks d1 = t :: rest → arguments t = a0 :: ar →
  mc !! "tokenizer" = Some tk → mc !! "batch_size" = Some bs →
  mc !! "chat_template" = Some ct → mc !! "trust_remote_code" = Some trc →
  fill_document a d1 m mc (select_script a dpo).2
    (job_name m (select_script a dpo).1)
  = Ok (document_of a m mc dpo tk bs ct trc t ar rest).
Proof.
  intros Ht Ha Htk Hbs Hct Htrc.
  destruct d1 as [desc ts]. cbn in Ht. subst ts.
  destruct t as [tn ti tc tp tg te ta]. cbn in Ha. subst ta.
  unfold document_of, command_line.
  destruct (select_script a dpo) as [group script]. cbn [fst snd].
  unfold fill_document, getitem. rewrite Htk, Hbs, Hct, Htrc.
  unfold mbind, result_bind, Py.bind, update_task0, set_description,
    append_arguments0, set_arguments0, set_name, set_gpuCount.
  cbn [tasks description arguments name image_beaker context_cluster
       context_priority resources_gpuCount envVars].
  destruct (mc !! "num_gpus") as [g|];
    cbn [tasks description arguments name image_beaker context_cluster
         context_priority resources_gpuCount envVars default];
    destruct (is_not_none ct), (truthy trc), (upload_to_hub a),
      (eval_on_pref_sets a), (mc !! "ref_model") as [r|], (ref_free a);
    reflexivity.
Qed.



(** ** Filters *)

Lemma skipped_excluded (a : args) (dpo : yaml) :
  eval_dpo_only a && eval_rm_only a = false →
  skipped a dpo = true ↔ excluded a dpo.
Proof.
  unfold skipped, excluded.
  destruct (eval_dpo_only a), (eval_rm_only a), (truthy dpo); cbn;
    intros ?; split; try discriminate; intuition congruence.
Qed.

(** X18: a sweep over entries that the filter leaves out ([--eval_dpo_only]
    over plain reward models, [--eval_rm_only] over DPO models) ends
    normally without a single event: no directory, no document, no
    command. *)
Theorem filtered_sweep_is_silent (a : args) (configs : configs_t)
    (d1 : document) (ms : list string) (st : state) :
  eval_dpo_only a && eval_rm_only a = false →
  (∀ m, m ∈ ms →
        ∃ mc dpo, configs_get configs m = Ok mc ∧ mc !! "dpo" = Some dpo
                  ∧ excluded a dpo) →
  sweep a configs d1 ms st = (st, Ok ()).
Proof.
  intros Hf. induction ms as [|m ms IH]; intros Hall; [reflexivity|].
  destruct (Hall m) as (mc & dpo & Hget & Hdpo & Hex); [left|].
  apply (skipped_excluded a dpo Hf) in Hex.
  rewrite sweep_cons. unfold submit_model. rewrite sub_bind_unfold.
  unfold lift, getitem. rewrite Hget, sub_bind_unfold, Hdpo, Hex.
  cbn [sub_ret]. apply IH. intros m' Hm'. apply Hall. now right.
Qed.

Lemma filtered_sweep_is_silent_witness :
  sweep (args_with None true false) [("modelA", modelA_config)] tiny_template
    ["modelA"] (initial false) = (initial false, Ok ())
  ∧ written_docs
      (trace (submit (args_with None true false)
                (world_of [("modelA", modelA_config)]) (initial false)).1)
    = [].
Proof.
  split; [|vm_compute; reflexivity].
  apply filtered_sweep_is_silent; [reflexivity|].
  intros m Hm. apply elem_of_cons in Hm.
  destruct Hm as [->|Hm]; [|now apply elem_of_nil in Hm].
  exists modelA_config, (YBool false).
  split; [reflexivity|]. split; [vm_compute; reflexivity|].
  left. split; reflexivity.
Defined.

(** ** Failures in the middle of a sweep *)

Lemma sweep_app (a : args) (configs : configs_t) (d1 : document)
    (ms1 ms2 : list string) (st : state) :
  sweep a configs d1 (ms1 ++ ms2) st
  = match sweep a configs d1 ms1 st with
    | (st1, Ok _) => sweep a configs d1 ms2 st1
    | (st1, Raise e) => (st1, Raise e)
    end.
Proof.
  revert st. induction ms1 as [|m ms1 IH]; intros st; [reflexivity|].
  cbn [app]. rewrite !sweep_cons.
  destruct (submit_model a configs d1 m st) as [st' [[]|e]];
    [apply IH | reflexivity].
Qed.

(** X19: when the entry of a model raises, the sweep stops there with that
    exception: the jobs of the models before it stay written and
    submitted, the failing entry leaves no event, and no later model is
    looked at. *)
Theorem failure_keeps_earlier_jobs (a : args) (configs : configs_t)
    (d1 : document) (ms1 ms2 : list string) (m : string) (st st1 : state)
    (e : exn) :
  sweep a configs d1 ms1 st = (st1, Ok ()) →
  (submit_model a configs d1 m st1).2 = Raise e →
  sweep a configs d1 (ms1 ++ m :: ms2) st = (st1, Raise e).
Proof.
  intros H1 Hm. rewrite sweep_app, H1, sweep_cons.
  destruct (submit_model_cases a configs d1 m st1)
    as [[e' He] | [[He _] | (mc & dpo & d & _ & _ & _ & _ & He)]];
    rewrite He in Hm |- *; cbn in Hm; [congruence | discriminate..].
Qed.

Lemma failure_keeps_earlier_jobs_witness :
  (sweep (args_with None false false) broken_configs tiny_template
     (["modelA"] ++ "bad" :: ["org/dpo"]) (initial true)).2
  = Raise (KeyError "tokenizer")
  ∧ length (written_docs
              (trace (sweep (args_with None false false) broken_configs
                        tiny_template (["modelA"] ++ "bad" :: ["org/dpo"])
                        (initial true)).1)) = 1%nat.
Proof.
  rewrite (failure_keeps_earlier_jobs (args_with None false false)
             broken_configs tiny_template ["modelA"] ["org/dpo"] "bad"
             (initial true)
             (sweep (args_with None false false) broken_configs tiny_template
                ["modelA"] (initial true)).1
             (KeyError "tokenizer")).
  - split; [reflexivity | vm_compute; reflexivity].
  - vm_compute. reflexivity.
  - vm_compute. reflexivity.
Defined.

(** ** Missing keys *)

(** X20: an entry that lacks one of the keys [dpo], [tokenizer],
    [batch_size], [chat_template], [trust_remote_code] raises [KeyError]
    for the first of them that is missing, and leaves no event. *)
Theorem missing_key_raises (a : args) (configs : configs_t) (d1 : document)
    (m : string) (mc : model_config) (st : state)
    (k : string) (pre post : list string) :
  (∃ t rest, tasks d1 = t :: rest ∧ arguments t ≠ []) →
  configs_get configs m = Ok mc →
  required_keys = pre ++ k :: post →
  Forall (λ k', is_Some (mc !! k')) pre →
  mc !! k = None →
  (∀ dpo, mc !! "dpo" = Some dpo → skipped a dpo = false) →
  submit_model a configs d1 m st = (st, Raise (KeyError k)).
Proof.
  intros (t & rest & Ht & Hargs) Hget Hkeys Hpre Hk Hskip.
  destruct d1 as [desc ts]. cbn in Ht. subst ts.
  destruct t as [tn ti tc tp tg te ta]. cbn in Hargs.
  destruct ta as [|a0 ar]; [done|].
  unfold submit_model. rewrite sub_bind_unfold. unfold lift, getitem.
  rewrite Hget, sub_bind_unfold.
  unfold required_keys in Hkeys.
  destruct pre as [|p1 pre]; cbn in Hkeys; inversion Hkeys; subst.
  { now rewrite Hk. }
  apply Forall_cons in Hpre. destruct Hpre as [[dpo Hdpo] Hpre].
  rewrite Hdpo, (Hskip dpo Hdpo).
  destruct (select_script a dpo) as [group script].
  rewrite sub_bind_unfold.
  unfold fill_document, getitem, mbind, result_bind, Py.bind, update_task0,
    set_description, append_arguments0, set_arguments0, set_name,
    set_gpuCount.
  cbn [tasks description arguments name image_beaker context_cluster
       context_priority resources_gpuCount envVars].
  destruct (mc !! "num_gpus") as [g|];
    cbn [tasks description arguments name image_beaker context_cluster
         context_priority resources_gpuCount envVars].
  all: destruct pre as [|p2 pre]; cbn in H1; inversion H1; subst;
    [now rewrite Hk|].
  all: apply Forall_cons in Hpre; destruct Hpre as [[tk Htk] Hpre];
    rewrite Htk.
  all: destruct pre as [|p3 pre]; cbn in H2; inversion H2; subst;
    [now rewrite Hk|].
  all: apply Forall_cons in Hpre; destruct Hpre as [[bs Hbs] Hpre];
    rewrite Hbs.
  all: cbn [tasks description arguments name image_beaker context_cluster
            context_priority resources_gpuCount envVars].
  all: destruct pre as [|p4 pre]; cbn in H3; inversion H3; subst;
    [now rewrite Hk|].
  all: apply Forall_cons in Hpre; destruct Hpre as [[ct Hct] Hpre];
    rewrite Hct.
  all: destruct pre as [|p5 pre]; cbn in H4; inversion H4; subst.
  all: try (destruct pre; discriminate).
  all: destruct (is_not_none ct);
    cbn [tasks description arguments name image_beaker context_cluster
         context_priority resources_gpuCount envVars];
    now rewrite Hk.
Qed.

Lemma missing_key_raises_witness :
  submit_model (args_with None false false) broken_configs tiny_template
    "bad" (initial true)
  = (initial true, Raise (KeyError "tokenizer")).
Proof.
  apply (missing_key_raises (args_with None false false) broken_configs
           tiny_template "bad" broken_config (initial true) "tokenizer"
           ["dpo"] ["batch_size"; "chat_template"; "trust_remote_code"]).
  - eexists _, _. split; [reflexivity | discriminate].
  - reflexivity.
  - reflexivity.
  - repeat constructor. vm_compute. eauto.
  - vm_compute. reflexivity.
  - intros dpo _. reflexivity.
Defined.

End SubmitterMore.
